(** * mysql_mcp_server: the verb dispatcher and its HTTP gateway

    A shallow embedding of [src/mysql_mcp_server/main.py].

    The Python functions [verify_api_key], [get_db_connection],
    [handle_request], [process_query] and [health_check] are written as
    computations in a state-and-exception monad [Py]: the state is the
    database engine's state together with the trace of what the process did
    to the outside world (connections, cursors, statements, log lines), and
    a computation either returns a value or raises a Python exception.

    What is not code of the repository is a parameter: the MySQL driver and
    engine ([Driver]), the interpreter's builtins [str.lower] and [repr]
    ([Builtins]), and the security scheme, the validation detail and the JSON
    encoder of the framework ([Framework]).  FastAPI's treatment of what a
    path operation returns or raises is written out in [fastapi_respond], and
    the order in which it decodes the body, solves the dependency and
    validates, in [query_endpoint]. *)

From Stdlib Require Import String Ascii ZArith List Bool.
From Stdlib Require Import Floats.PrimFloat DecimalString.
From ExtLib Require Import Structures.Monad Structures.MonadExc.
Import ListNotations.
Import MonadNotation.

Local Open Scope list_scope.
Local Open Scope string_scope.
Local Open Scope Z_scope.
Local Open Scope monad_scope.

#[local] Set Warnings "-register-all".

(** ** Python values *)

(** The values a JSON body parses to, and the values a result row holds.
    A [dict] keeps its items in insertion order, as Python's does. *)
Inductive value : Type :=
| VNone
| VBool (b : bool)
| VInt (n : Z)
| VFloat (x : float)
| VStr (s : string)
| VList (items : list value)
| VTuple (items : list value)
| VDict (items : list (string * value)).

Definition dict : Type := list (string * value).

(** [d.get(key)] is [None] on a missing key; [dict_get] keeps the two apart. *)
Fixpoint dict_get (d : dict) (key : string) : option value :=
  match d with
  | [] => None
  | (k, v) :: rest => if String.eqb k key then Some v else dict_get rest key
  end.

(** [d.get(key, default)] *)
Definition dict_get_default (d : dict) (key : string) (default : value) : value :=
  match dict_get d key with
  | Some v => v
  | None => default
  end.

(** [d[key] = v]: an existing key keeps its place. *)
Fixpoint dict_set (d : dict) (key : string) (v : value) : dict :=
  match d with
  | [] => [(key, v)]
  | (k, v0) :: rest =>
      if String.eqb k key then (k, v) :: rest else (k, v0) :: dict_set rest key v
  end.

(** [dict(zip(keys, values))] *)
Definition dict_of_zip (keys : list string) (values : list value) : dict :=
  fold_left (fun d kv => dict_set d (fst kv) (snd kv)) (combine keys values) [].

(** Truth value of an object, as [not x] and [if x] test it. *)
Definition truthy (v : value) : bool :=
  match v with
  | VNone => false
  | VBool b => b
  | VInt n => negb (n =? 0)
  | VFloat x => negb (PrimFloat.eqb x PrimFloat.zero)
  | VStr s => negb (String.eqb s "")
  | VList items => match items with [] => false | _ => true end
  | VTuple items => match items with [] => false | _ => true end
  | VDict items => match items with [] => false | _ => true end
  end.

(** [v == "literal"]: only a [str] equals a [str]. *)
Definition py_eq_str (v : value) (literal : string) : bool :=
  match v with
  | VStr s => String.eqb s literal
  | _ => false
  end.

(** [type(v).__name__], for the text of an [AttributeError]. *)
Definition type_name (v : value) : string :=
  match v with
  | VNone => "NoneType"
  | VBool _ => "bool"
  | VInt _ => "int"
  | VFloat _ => "float"
  | VStr _ => "str"
  | VList _ => "list"
  | VTuple _ => "tuple"
  | VDict _ => "dict"
  end.

Definition string_of_Z (n : Z) : string := NilZero.string_of_int (Z.to_int n).

(** [needle in haystack] on strings. *)
Fixpoint contains (needle haystack : string) : bool :=
  String.prefix needle haystack ||
  match haystack with
  | EmptyString => false
  | String _ rest => contains needle rest
  end.

(** The interpreter's builtins the program calls and does not define. *)
Record Builtins : Type := {
  (** [s.lower()] *)
  str_lower : string -> string;
  (** [repr(v)], where [str(v)] falls back on it: floats and containers *)
  py_repr : value -> string
}.

(** [str(v)], which is what an f-string field [{v}] renders. *)
Definition py_str (py : Builtins) (v : value) : string :=
  match v with
  | VNone => "None"
  | VBool true => "True"
  | VBool false => "False"
  | VInt n => string_of_Z n
  | VStr s => s
  | _ => py_repr py v
  end.

(** ** Exceptions *)

Inductive exn : Type :=
| HTTPException (status_code : Z) (detail : value)
| MySQLError (text : string)               (* mysql.connector.Error; [text] is [str(err)] *)
| PyException (class text : string).       (* AttributeError, IndexError, ... *)

Inductive outcome (A : Type) : Type :=
| Return (a : A)
| Raise (e : exn).
Arguments Return {A} a.
Arguments Raise {A} e.

(** [str(e)] *)
Definition exn_str (py : Builtins) (e : exn) : string :=
  match e with
  | HTTPException status_code detail =>
      string_of_Z status_code ++ ": " ++ py_str py detail
  | MySQLError text => text
  | PyException _ text => text
  end.

(** ** The MySQL driver and the engine behind it *)

(** What a statement yields: the column names and the rows. *)
Record result_set : Type := {
  column_names : list string;
  rows : list (list value)
}.

(** A failure inside the driver: a [mysql.connector.Error], or anything else. *)
Inductive fault : Type :=
| DriverError (text : string)
| Crash (class text : string).

Definition exn_of_fault (f : fault) : exn :=
  match f with
  | DriverError text => MySQLError text
  | Crash class text => PyException class text
  end.

Record Driver : Type := {
  dbstate : Type;
  (** [mysql.connector.connect(host=..., ...)] with the configured parameters *)
  connect : dbstate -> option fault * dbstate;
  (** one statement run by the engine *)
  run : dbstate -> string -> (fault + result_set) * dbstate
}.

(** What the process does to the outside world, in order. *)
Inductive event : Type :=
| Connect (opened : bool)
| OpenCursor (dictionary : bool)
| Execute (sql : string)
| CloseCursor
| CloseConnection
| LogError (message : string).

Definition is_open (e : event) : bool :=
  match e with Connect true => true | _ => false end.
Definition is_close (e : event) : bool :=
  match e with CloseConnection => true | _ => false end.

Definition count (p : event -> bool) (evs : list event) : nat :=
  length (filter p evs).

(** The world a computation runs in: the engine's state, and what the
    process has done so far. *)
Record world (mysql : Driver) : Type := {
  db : dbstate mysql;
  trace : list event
}.
Arguments db {mysql} w.
Arguments trace {mysql} w.
Arguments Build_world {mysql} db trace.

(** The events a run added to the trace. *)
Definition added {mysql : Driver} (w w' : world mysql) (evs : list event) : Prop :=
  trace w' = (trace w ++ evs)%list.

(** Where one call stands with the database. *)
Inductive phase : Type :=
| Idle          (* no connection attempted yet *)
| Refused       (* the attempt failed *)
| Connected     (* a connection is open, no cursor *)
| Ready         (* the cursor is open *)
| Sent          (* the statement was sent on the cursor *)
| Drained       (* the cursor is closed, the connection still open *)
| Released.     (* the connection is closed *)

(** The only moves: one attempt to connect; on an open connection one
    cursor; on the open cursor one statement; the cursor is closed before the
    connection.  A log line is allowed anywhere. *)
Definition step (p : phase) (e : event) : option phase :=
  match e, p with
  | LogError _, _ => Some p
  | Connect true, Idle => Some Connected
  | Connect false, Idle => Some Refused
  | OpenCursor _, Connected => Some Ready
  | Execute _, Ready => Some Sent
  | CloseCursor, Ready => Some Drained
  | CloseCursor, Sent => Some Drained
  | CloseConnection, Connected => Some Released
  | CloseConnection, Drained => Some Released
  | _, _ => None
  end.

Fixpoint follow (p : phase) (evs : list event) : option phase :=
  match evs with
  | [] => Some p
  | e :: rest =>
      match step p e with
      | Some p' => follow p' rest
      | None => None
      end
  end.

(** The events are, in this order, moves of the protocol from [Idle]. *)
Definition orderly (evs : list event) : Prop :=
  exists p, follow Idle evs = Some p.

(** ** What the gateway receives and answers *)

(** The bearer token as the framework's [HTTPBearer] extracts it. *)
Record HTTPAuthorizationCredentials : Type := {
  scheme : string;
  credentials : string
}.

(** The body of [POST /query]. *)
Record McpRequest : Type := { mcp_request : dict }.

(** What a path operation hands back to the framework: a value to encode,
    or, as line 123 has it, an [HTTPException] object. *)
Inductive returned : Type :=
| Content (v : value)
| ExceptionObject (status_code : Z) (detail : value).

(** An HTTP response. *)
Record response : Type := {
  status : Z;
  body : value
}.

(** The body of an HTTP request, as the framework finds it. *)
Inductive raw_body : Type :=
| NotJSON                 (* bytes sent as JSON that do not decode *)
| Undecoded               (* no bytes, or bytes not sent as JSON *)
| Json (v : value).       (* the decoded body *)

Record http_request : Type := {
  authorization : option string;      (* the [Authorization] header *)
  payload : raw_body
}.

(** What FastAPI does around the path operation and is not code of the
    repository: the security scheme [auth_scheme = HTTPBearer()], which
    returns the credentials of the header or raises its own [HTTPException];
    the detail of a 422 answer; the encoding of a body into JSON. *)
Record Framework : Type := {
  auth_scheme : option string -> outcome (option HTTPAuthorizationCredentials);
  validation_detail : raw_body -> value;
  json_dumps : value -> string
}.

(** Validation of the decoded body against [McpRequest]: a JSON object whose
    [mcp_request] is a JSON object. *)
Definition validate (b : raw_body) : option McpRequest :=
  match b with
  | Json (VDict fields) =>
      match dict_get fields "mcp_request" with
      | Some (VDict request_data) => Some {| mcp_request := request_data |}
      | _ => None
      end
  | _ => None
  end.

Definition unprocessable (web : Framework) (b : raw_body) : response :=
  {| status := 422; body := VDict [("detail", validation_detail web b)] |}.

(** ** Configuration, read when the module is loaded *)

(** The process environment, after [load_dotenv()]. *)
Definition environ : Type := string -> option string.

(** [os.getenv(name, default)]; [os.getenv(name)] has default [None]. *)
Definition os_getenv (env : environ) (name : string) (default : value) : value :=
  match env name with
  | Some text => VStr text
  | None => default
  end.

(** The module's globals of lines 16 to 24. *)
Record settings : Type := {
  settings_API_KEY : value;
  settings_DB_HOST : value;
  settings_DB_PORT : value;
  settings_DB_USER : value;
  settings_DB_PASSWORD : value;
  settings_DB_NAME : value
}.

(** Lines 16 to 27: the two checks that stop the import with a [ValueError]. *)
Definition load_settings (env : environ) : outcome settings :=
  let API_KEY := os_getenv env "API_KEY" VNone in
  if negb (truthy API_KEY) then
    Raise (PyException "ValueError" "API_KEY environment variable is not set.")
  else
    let DB_HOST := os_getenv env "MYSQL_HOST" VNone in
    let DB_PORT := os_getenv env "MYSQL_PORT" (VInt 3306) in
    let DB_USER := os_getenv env "MYSQL_USER" VNone in
    let DB_PASSWORD := os_getenv env "MYSQL_PASSWORD" VNone in
    let DB_NAME := os_getenv env "MYSQL_DATABASE" VNone in
    if negb (forallb truthy [DB_HOST; DB_USER; DB_PASSWORD; DB_NAME]) then
      Raise (PyException "ValueError" "One or more MySQL environment variables are missing.")
    else
      Return {| settings_API_KEY := API_KEY;
                settings_DB_HOST := DB_HOST;
                settings_DB_PORT := DB_PORT;
                settings_DB_USER := DB_USER;
                settings_DB_PASSWORD := DB_PASSWORD;
                settings_DB_NAME := DB_NAME |}.

(** A variable is set when it is in the environment with a non-empty text. *)
Definition is_set (env : environ) (name : string) : Prop :=
  exists text, env name = Some text /\ text <> "".

(** ** A sample interpreter and a sample engine

    Concrete instances of the two parameters, on which the program runs. *)

(** [str.lower] on ASCII text. *)
Definition ascii_lower_char (c : ascii) : ascii :=
  let n := nat_of_ascii c in
  if (Nat.leb 65 n && Nat.leb n 90)%bool then ascii_of_nat (n + 32) else c.

Fixpoint ascii_lower (s : string) : string :=
  match s with
  | EmptyString => EmptyString
  | String c rest => String (ascii_lower_char c) (ascii_lower rest)
  end.

Definition sample_builtins : Builtins :=
  {| str_lower := ascii_lower; py_repr := fun _ => "<object>" |}.

Record table : Type := {
  tbl_name : string;
  columns : list string;
  records : list (list value)        (* in the engine's default order *)
}.

Record schema : Type := {
  online : bool;
  tables : list table
}.

Definition select_all_limit_100 (name : string) : string :=
  "SELECT * FROM `" ++ name ++ "` LIMIT 100;".

(** An engine that knows [SHOW TABLES;] and the capped [SELECT *] on one of
    its tables, and rejects every other statement. *)
Definition sample_run (s : schema) (sql : string) : (fault + result_set) * schema :=
  if String.eqb sql "SHOW TABLES;" then
    (inr {| column_names := ["Tables_in_shop"];
            rows := map (fun t => [VStr (tbl_name t)]) (tables s) |}, s)
  else
    match find (fun t => String.eqb sql (select_all_limit_100 (tbl_name t))) (tables s) with
    | Some t => (inr {| column_names := columns t; rows := firstn 100 (records t) |}, s)
    | None =>
        if String.prefix "SELECT * FROM `" sql
        then (inl (DriverError "1146 (42S02): Table doesn't exist"), s)
        else (inl (DriverError "1064 (42000): You have an error in your SQL syntax"), s)
    end.

Definition sample_connect (s : schema) : option fault * schema :=
  if online s then (None, s)
  else (Some (DriverError "2003 (HY000): Can't connect to MySQL server"), s).

Definition sample_driver : Driver :=
  {| dbstate := schema; connect := sample_connect; run := sample_run |}.

Definition users : table :=
  {| tbl_name := "users";
     columns := ["id"; "name"];
     records := map (fun i => [VInt (Z.of_nat i); VStr "user"]) (seq 1 150) |}.

Definition shop : schema := {| online := true; tables := [users] |}.
Definition shop_offline : schema := {| online := false; tables := [users] |}.

Definition shop_world : world sample_driver := @Build_world sample_driver shop [].
Definition shop_offline_world : world sample_driver :=
  @Build_world sample_driver shop_offline [].

Definition secret : string := "s3cret".
Definition bearer : HTTPAuthorizationCredentials :=
  {| scheme := "Bearer"; credentials := "s3cret" |}.

(** An engine that accepts connections and denies every statement. *)
Definition denied : string := "1142 (42000): command denied to user".

Definition locked_driver : Driver :=
  {| dbstate := unit;
     connect := fun s => (None, s);
     run := fun s _ => (inl (DriverError denied), s) |}.

Definition locked_world : world locked_driver := @Build_world locked_driver tt [].

Definition read_request (name : string) : dict :=
  [("verb", VStr "read"); ("parameters", VDict [("name", VStr name)])].

Definition execute_request (statement : string) : dict :=
  [("verb", VStr "execute"); ("parameters", VDict [("statement", VStr statement)])].

(** An environment with the secret and the four database variables, and no
    [MYSQL_PORT]. *)
Definition shop_environ : environ :=
  fun name =>
    if String.eqb name "API_KEY" then Some "s3cret"
    else if String.eqb name "MYSQL_HOST" then Some "db.internal"
    else if String.eqb name "MYSQL_USER" then Some "reader"
    else if String.eqb name "MYSQL_PASSWORD" then Some "hunter2"
    else if String.eqb name "MYSQL_DATABASE" then Some "shop"
    else None.

(** *** An engine that reads its statements

    The tables of a schema behind the two statement forms the dispatcher
    writes itself.  [SELECT * FROM `name` LIMIT n;] is read as MySQL reads
    it: the quoted identifier ends at the first backtick, and the answer is
    the first [n] rows of that table in the engine's order. *)

Fixpoint strip_prefix (prefix text : string) : option string :=
  match prefix with
  | EmptyString => Some text
  | String a prefix' =>
      match text with
      | String b text' => if Ascii.eqb a b then strip_prefix prefix' text' else None
      | EmptyString => None
      end
  end.

(** The text before the first backtick, and the text after it. *)
Fixpoint until_backtick (text : string) : option (string * string) :=
  match text with
  | EmptyString => None
  | String c rest =>
      if Ascii.eqb c "`" then Some (EmptyString, rest)
      else match until_backtick rest with
           | Some (before, after) => Some (String c before, after)
           | None => None
           end
  end.

Definition digit (c : ascii) : option nat :=
  let n := nat_of_ascii c in
  if (Nat.leb 48 n && Nat.leb n 57)%bool then Some (n - 48)%nat else None.

(** Decimal digits up to a final semicolon. *)
Fixpoint limit_digits (seen : option nat) (text : string) : option nat :=
  match text with
  | EmptyString => None
  | String c rest =>
      if Ascii.eqb c ";" then
        match rest with EmptyString => seen | _ => None end
      else
        match digit c with
        | Some d =>
            limit_digits
              (Some (10 * match seen with Some n => n | None => 0 end + d)%nat) rest
        | None => None
        end
  end.

Definition parse_select (sql : string) : option (string * nat) :=
  match strip_prefix "SELECT * FROM `" sql with
  | Some text =>
      match until_backtick text with
      | Some (name, text) =>
          match strip_prefix " LIMIT " text with
          | Some text =>
              match limit_digits None text with
              | Some n => Some (name, n)
              | None => None
              end
          | None => None
          end
      | None => None
      end
  | None => None
  end.

Definition find_table (s : schema) (name : string) : option table :=
  find (fun t => String.eqb (tbl_name t) name) (tables s).

Definition table_run (s : schema) (sql : string) : (fault + result_set) * schema :=
  if String.eqb sql "SHOW TABLES;" then
    (inr {| column_names := ["Tables_in_shop"];
            rows := map (fun t => [VStr (tbl_name t)]) (tables s) |}, s)
  else
    match parse_select sql with
    | Some (name, n) =>
        match find_table s name with
        | Some t => (inr {| column_names := columns t; rows := firstn n (records t) |}, s)
        | None => (inl (DriverError ("1146 (42S02): Table '" ++ name ++ "' doesn't exist")), s)
        end
    | None => (inl (DriverError "1064 (42000): You have an error in your SQL syntax"), s)
    end.

Definition table_driver : Driver :=
  {| dbstate := schema; connect := sample_connect; run := table_run |}.

Definition table_world : world table_driver := @Build_world table_driver shop [].

(** The name can stand between backticks as it is. *)
Fixpoint plain (name : string) : bool :=
  match name with
  | EmptyString => true
  | String c rest => negb (Ascii.eqb c "`") && plain rest
  end.

(** *** An engine with a clock

    Its stored data never changes; [SELECT NOW()] answers the time, which
    moves with every statement. *)
Record clocked : Type := {
  stored : schema;
  clock : Z
}.

Definition clock_run (s : clocked) (sql : string) : (fault + result_set) * clocked :=
  let later := {| stored := stored s; clock := clock s + 1 |} in
  if String.eqb sql "SELECT NOW()" then
    (inr {| column_names := ["NOW()"]; rows := [[VInt (clock s)]] |}, later)
  else
    (inl (DriverError "1064 (42000): You have an error in your SQL syntax"), later).

Definition clock_driver : Driver :=
  {| dbstate := clocked; connect := fun s => (None, s); run := clock_run |}.

Definition clock_world : world clock_driver :=
  @Build_world clock_driver {| stored := shop; clock := 1700000000 |} [].

(** *** A security scheme

    [HTTPBearer()] on the [Authorization] header: the text before the first
    space is the scheme, the rest the credentials; a missing part is
    answered by the scheme itself. *)
Fixpoint partition_space (text : string) : string * string :=
  match text with
  | EmptyString => (EmptyString, EmptyString)
  | String c rest =>
      if Ascii.eqb c " " then (EmptyString, rest)
      else let (before, after) := partition_space rest in (String c before, after)
  end.

Definition http_bearer (header : option string)
    : outcome (option HTTPAuthorizationCredentials) :=
  match header with
  | None => Raise (HTTPException 401 (VStr "Not authenticated"))
  | Some text =>
      let (scheme, credentials) := partition_space text in
      if (String.eqb scheme "" || String.eqb credentials "")%bool then
        Raise (HTTPException 401 (VStr "Not authenticated"))
      else if negb (String.eqb (ascii_lower scheme) "bearer") then
        Raise (HTTPException 401 (VStr "Not authenticated"))
      else
        Return (Some {| scheme := scheme; credentials := credentials |})
  end.

Definition sample_web : Framework :=
  {| auth_scheme := http_bearer;
     validation_detail := fun _ => VList [];
     json_dumps := fun _ => "" |}.

(** An engine whose driver fails outside [mysql.connector.Error]. *)
Definition broken_driver : Driver :=
  {| dbstate := unit;
     connect := fun s => (None, s);
     run := fun s _ => (inl (Crash "OSError" "connection reset by peer"), s) |}.

Definition broken_world : world broken_driver := @Build_world broken_driver tt [].

(** ** The program *)

Section Server.

Variable py : Builtins.
Variable mysql : Driver.

(** The configured secret, [os.getenv("API_KEY")]. *)
Variable API_KEY : string.

(** A computation runs in a world and returns or raises; either way the
    world it leaves behind is kept. *)
Definition Py (A : Type) : Type := world mysql -> outcome A * world mysql.

#[local] Instance Monad_Py : Monad Py := {|
  ret := fun _ a w => (Return a, w);
  bind := fun _ _ c k w =>
    match c w with
    | (Return a, w') => k a w'
    | (Raise e, w') => (Raise e, w')
    end
|}.

(** [catch body handler] is [try: body / except Exception as e: handler e]. *)
#[local] Instance Exception_Py : MonadExc exn Py := {|
  raise := fun _ e w => (Raise e, w);
  catch := fun _ body handler w =>
    match body w with
    | (Return a, w') => (Return a, w')
    | (Raise e, w') => handler e w'
    end
|}.

(** [try: body / finally: cleanup] *)
Definition finally {A : Type} (body : Py A) (cleanup : Py unit) : Py A :=
  fun w =>
    let (o, w1) := body w in
    match cleanup w1 with
    | (Return _, w2) => (o, w2)
    | (Raise e, w2) => (Raise e, w2)
    end.

Definition emit (e : event) : Py unit :=
  fun w => (Return tt, {| db := db w; trace := (trace w ++ [e])%list |}).

(** [logging.error(message)] *)
Definition logging_error (message : string) : Py unit := emit (LogError message).

(** [[f(x) for x in l]] *)
Fixpoint for_each {A B : Type} (f : A -> Py B) (l : list A) : Py (list B) :=
  match l with
  | [] => ret []
  | x :: rest => y <- f x ;; ys <- for_each f rest ;; ret (y :: ys)
  end.

(** [v.get(key)]: only a [dict] has the method. *)
Definition method_get (v : value) (key : string) : Py value :=
  match v with
  | VDict d => ret (dict_get_default d key VNone)
  | _ => raise (PyException "AttributeError"
                  ("'" ++ type_name v ++ "' object has no attribute 'get'"))
  end.

(** [v.lower()]: only a [str] has the method. *)
Definition method_lower (v : value) : Py string :=
  match v with
  | VStr s => ret (str_lower py s)
  | _ => raise (PyException "AttributeError"
                  ("'" ++ type_name v ++ "' object has no attribute 'lower'"))
  end.

(** [item[0]] *)
Definition getitem0 (item : value) : Py value :=
  match item with
  | VTuple (x :: _) => ret x
  | VList (x :: _) => ret x
  | VTuple [] => raise (PyException "IndexError" "tuple index out of range")
  | VList [] => raise (PyException "IndexError" "list index out of range")
  | VStr (String c _) => ret (VStr (String c ""))
  | VStr EmptyString => raise (PyException "IndexError" "string index out of range")
  | VDict _ => raise (PyException "KeyError" "0")
  | _ => raise (PyException "TypeError"
                  ("'" ++ type_name item ++ "' object is not subscriptable"))
  end.

(** *** The driver's objects *)

Inductive connection : Type := Connection.

(** A cursor holds the result of the statement it ran last. *)
Record cursor : Type := {
  dictionary : bool;
  pending : option result_set
}.

(** [mysql.connector.connect(host=DB_HOST, ...)] *)
Definition mysql_connector_connect : Py connection :=
  fun w =>
    match connect mysql (db w) with
    | (None, s) =>
        (Return Connection, {| db := s; trace := (trace w ++ [Connect true])%list |})
    | (Some f, s) =>
        (Raise (exn_of_fault f), {| db := s; trace := (trace w ++ [Connect false])%list |})
    end.

(** [conn.cursor()] and [conn.cursor(dictionary=True)] *)
Definition conn_cursor (conn : connection) (dictionary : bool) : Py cursor :=
  emit (OpenCursor dictionary) ;;
  ret {| dictionary := dictionary; pending := None |}.

(** [cursor.execute(sql)]; the cursor that comes back holds the result. *)
Definition cursor_execute (c : cursor) (sql : string) : Py cursor :=
  fun w =>
    let t := (trace w ++ [Execute sql])%list in
    match run mysql (db w) sql with
    | (inr rs, s) =>
        (Return {| dictionary := dictionary c; pending := Some rs |}, {| db := s; trace := t |})
    | (inl f, s) => (Raise (exn_of_fault f), {| db := s; trace := t |})
    end.

(** [cursor.fetchall()]: tuples, or mappings from a dictionary cursor. *)
Definition cursor_fetchall (c : cursor) : Py (list value) :=
  match pending c with
  | Some rs =>
      ret (map (fun r => if dictionary c
                         then VDict (dict_of_zip (column_names rs) r)
                         else VTuple r) (rows rs))
  | None => raise (MySQLError "No result set to fetch from.")
  end.

Definition cursor_close (c : cursor) : Py unit := emit CloseCursor.
Definition conn_close (conn : connection) : Py unit := emit CloseConnection.

(** *** [get_db_connection] *)

Definition get_db_connection : Py connection :=
  catch mysql_connector_connect
    (fun e =>
       match e with
       | MySQLError err =>
           logging_error ("Database connection failed: " ++ err) ;;
           raise (HTTPException 500 (VStr ("Database connection error: " ++ err)))
       | _ => raise e
       end).

(** *** [handle_request] *)

Definition banned_keywords : list string := ["delete"; "drop"; "update"; "insert"].

(** ["delete" in t or "drop" in t or "update" in t or "insert" in t] *)
Definition mentions_banned (t : string) : bool :=
  contains "delete" t || contains "drop" t || contains "update" t || contains "insert" t.

Definition handle_request (request_data : dict) : Py dict :=
  let verb := dict_get_default request_data "verb" VNone in
  if py_eq_str verb "list_resources" then
    conn <- get_db_connection ;;
    cursor <- conn_cursor conn false ;;
    cursor <- cursor_execute cursor "SHOW TABLES;" ;;
    items <- cursor_fetchall cursor ;;
    tables <- for_each getitem0 items ;;
    cursor_close cursor ;;
    conn_close conn ;;
    ret [("resources",
          VList (map (fun table =>
                        VDict [("name", table);
                               ("description", VStr ("Table: " ++ py_str py table))])
                     tables))]
  else if py_eq_str verb "read" then
    table_name <- method_get (dict_get_default request_data "parameters" (VDict [])) "name" ;;
    if negb (truthy table_name) then
      ret [("error", VStr "Table name is required for read verb.")]
    else
      conn <- get_db_connection ;;
      cursor <- conn_cursor conn true ;;
      cursor <- cursor_execute cursor
                  ("SELECT * FROM `" ++ py_str py table_name ++ "` LIMIT 100;") ;;
      rows <- cursor_fetchall cursor ;;
      cursor_close cursor ;;
      conn_close conn ;;
      ret [("data", VList rows)]
  else if py_eq_str verb "execute" then
    statement <- method_get (dict_get_default request_data "parameters" (VDict [])) "statement" ;;
    if negb (truthy statement) then
      ret [("error", VStr "SQL statement is required for execute verb.")]
    else
      lowered <- method_lower statement ;;
      if mentions_banned lowered then
        ret [("error", VStr "Only SELECT statements are allowed for security reasons.")]
      else
        conn <- get_db_connection ;;
        cursor <- conn_cursor conn true ;;
        finally
          (catch
             (cursor <- cursor_execute cursor (py_str py statement) ;;
              results <- cursor_fetchall cursor ;;
              ret [("results", VList results)])
             (fun e =>
                match e with
                | MySQLError err => ret [("error", VStr ("SQL Error: " ++ err))]
                | _ => raise e
                end))
          (cursor_close cursor ;; conn_close conn)
  else
    ret [("error", VStr ("Unsupported verb: " ++ py_str py verb))].

(** *** The endpoints *)

(** The dependency of [/query]; [creds] is [None] when the request carries
    no bearer token. *)
Definition verify_api_key (creds : option HTTPAuthorizationCredentials) : Py string :=
  match creds with
  | None => raise (HTTPException 401 (VStr "Invalid API key"))
  | Some c =>
      if negb (String.eqb (credentials c) API_KEY)
      then raise (HTTPException 401 (VStr "Invalid API key"))
      else ret (credentials c)
  end.

Definition process_query (request : McpRequest) : Py returned :=
  catch
    (response <- handle_request (mcp_request request) ;;
     match dict_get response "error" with
     | Some message => ret (ExceptionObject 400 message)
     | None => ret (Content (VDict response))
     end)
    (fun e =>
       match e with
       | HTTPException _ _ => raise e
       | _ =>
           logging_error ("An unexpected error occurred: " ++ exn_str py e) ;;
           raise (HTTPException 500 (VStr "An internal server error occurred."))
       end).

Definition health_check : Py returned :=
  catch
    (conn <- get_db_connection ;;
     conn_close conn ;;
     ret (Content (VDict [("status", VStr "ok");
                          ("database_connection", VStr "successful")])))
    (fun e =>
       ret (Content (VDict [("status", VStr "error");
                            ("database_connection", VStr "failed");
                            ("detail", VStr (exn_str py e))]))).

(** *** FastAPI around a path operation *)

(** A returned object is encoded into the body of a 200 response (an
    exception object through its attributes, like any other object); a raised
    [HTTPException] becomes a response with its status code. *)
Definition fastapi_respond (o : outcome returned) : response :=
  match o with
  | Return (Content v) => {| status := 200; body := v |}
  | Return (ExceptionObject status_code detail) =>
      {| status := 200;
         body := VDict [("status_code", VInt status_code);
                        ("detail", detail);
                        ("headers", VNone)] |}
  | Raise (HTTPException status_code detail) =>
      {| status := status_code; body := VDict [("detail", detail)] |}
  | Raise _ => {| status := 500; body := VStr "Internal Server Error" |}
  end.

(** [POST /query], with [dependencies=[Depends(verify_api_key)]]: the
    dependency runs first, and the path operation only if it returns. *)
Definition post_query (creds : option HTTPAuthorizationCredentials)
    (request : McpRequest) : world mysql -> response * world mysql :=
  fun w =>
    let (o, w') := (verify_api_key creds ;; process_query request) w in
    (fastapi_respond o, w').

(** [GET /health] *)
Definition get_health : world mysql -> response * world mysql :=
  fun w => let (o, w') := health_check w in (fastapi_respond o, w').

(** [POST /query] from the HTTP request on, in the order the framework
    works: it decodes a JSON body, and answers 422 at once when the bytes do
    not decode; it solves the dependency, [verify_api_key] on what
    [auth_scheme] returns, and an exception of either is the answer; it
    validates the body against [McpRequest], 422 again; only then does it
    call [process_query]. *)
Definition query_endpoint (web : Framework) (request : http_request)
    : world mysql -> response * world mysql :=
  fun w =>
    match payload request with
    | NotJSON => (unprocessable web NotJSON, w)
    | b =>
        match auth_scheme web (authorization request) with
        | Raise e => (fastapi_respond (Raise e), w)
        | Return creds =>
            match verify_api_key creds w with
            | (Raise e, w') => (fastapi_respond (Raise e), w')
            | (Return _, w') =>
                match validate b with
                | None => (unprocessable web b, w')
                | Some mcp =>
                    let (o, w'') := process_query mcp w' in (fastapi_respond o, w'')
                end
            end
        end
    end.

(** *** Reading a run *)

(** A computation is steady when it never looks at the trace: from an engine
    state it has one outcome, one final engine state and one list of events
    that it adds, whatever happened before. *)
Definition steady {A : Type} (c : Py A) : Prop :=
  forall s, exists o s' evs,
    forall t, c (Build_world s t) = (o, Build_world s' (t ++ evs)%list).

(** The events of a run from engine state [s]. *)
Definition events_of {A : Type} (c : Py A) (s : dbstate mysql) : list event :=
  trace (snd (c (Build_world s []))).

(** A connection that was opened was closed, and there was at most one. *)
Definition released (evs : list event) : Prop :=
  count is_open evs = count is_close evs /\ (count is_open evs <= 1)%nat.

(** The parameter a branch reads, [request_data.get("parameters", {}).get(key)],
    when [parameters] is absent or a mapping. *)
Definition parameter (request_data : dict) (key : string) : option value :=
  match dict_get request_data "parameters" with
  | None => Some VNone
  | Some (VDict parameters) => Some (dict_get_default parameters key VNone)
  | Some _ => None
  end.

(** The requests that get past the dispatcher's own checks: a
    [list_resources], a [read] with a name that is not falsy, an [execute]
    with a non-empty text that mentions none of the keywords. *)
Definition reaches_database (request_data : dict) : bool :=
  let verb := dict_get_default request_data "verb" VNone in
  if py_eq_str verb "list_resources" then true
  else if py_eq_str verb "read" then
    match parameter request_data "name" with
    | Some table_name => truthy table_name
    | None => false
    end
  else if py_eq_str verb "execute" then
    match parameter request_data "statement" with
    | Some (VStr statement) =>
        truthy (VStr statement) && negb (mentions_banned (str_lower py statement))
    | _ => false
    end
  else false.

(** The four shapes of a result. *)
Definition one_shape (result : dict) : Prop :=
  (exists resources, result = [("resources", VList resources)]) \/
  (exists data, result = [("data", VList data)]) \/
  (exists results, result = [("results", VList results)]) \/
  (exists message, result = [("error", VStr message)]).

(** ** Properties *)

(** *** How computations run *)

Lemma world_eta (w : world mysql) : Build_world (db w) (trace w) = w.
Proof. destruct w; reflexivity. Qed.

Lemma run_bind {A B : Type} (c : Py A) (k : A -> Py B) (w : world mysql) :
  (x <- c ;; k x) w =
  match c w with
  | (Return a, w') => k a w'
  | (Raise e, w') => (Raise e, w')
  end.
Proof. reflexivity. Qed.

Lemma steady_ret {A : Type} (a : A) : steady (ret a).
Proof.
  intros s. exists (Return a), s, []. intros t. cbn. now rewrite app_nil_r.
Qed.

Lemma steady_raise {A : Type} (e : exn) : steady (raise e : Py A).
Proof.
  intros s. exists (Raise e), s, []. intros t. cbn. now rewrite app_nil_r.
Qed.

Lemma steady_emit (e : event) : steady (emit e).
Proof. intros s. exists (Return tt), s, [e]. reflexivity. Qed.

Lemma steady_bind {A B : Type} (c : Py A) (k : A -> Py B) :
  steady c -> (forall a, steady (k a)) -> steady (x <- c ;; k x).
Proof.
  intros Hc Hk s.
  destruct (Hc s) as (o & s1 & evs1 & H1).
  destruct o as [a | e].
  - destruct (Hk a s1) as (o2 & s2 & evs2 & H2).
    exists o2, s2, (evs1 ++ evs2)%list. intros t.
    rewrite run_bind, H1, H2, app_assoc. reflexivity.
  - exists (Raise e), s1, evs1. intros t.
    rewrite run_bind, H1. reflexivity.
Qed.

Lemma steady_catch {A : Type} (body : Py A) (handler : exn -> Py A) :
  steady body -> (forall e, steady (handler e)) -> steady (catch body handler).
Proof.
  intros Hb Hh s.
  destruct (Hb s) as (o & s1 & evs1 & H1).
  destruct o as [a | e].
  - exists (Return a), s1, evs1. intros t. cbn. rewrite H1. reflexivity.
  - destruct (Hh e s1) as (o2 & s2 & evs2 & H2).
    exists o2, s2, (evs1 ++ evs2)%list. intros t.
    cbn. rewrite H1, H2, app_assoc. reflexivity.
Qed.

Lemma steady_finally {A : Type} (body : Py A) (cleanup : Py unit) :
  steady body -> steady cleanup -> steady (finally body cleanup).
Proof.
  intros Hb Hc s.
  destruct (Hb s) as (o & s1 & evs1 & H1).
  destruct (Hc s1) as (o2 & s2 & evs2 & H2).
  destruct o2 as [u | e].
  - exists o, s2, (evs1 ++ evs2)%list. intros t.
    unfold finally. rewrite H1, H2, app_assoc. reflexivity.
  - exists (Raise e), s2, (evs1 ++ evs2)%list. intros t.
    unfold finally. rewrite H1, H2, app_assoc. reflexivity.
Qed.

Lemma steady_connect : steady mysql_connector_connect.
Proof.
  intros s. unfold mysql_connector_connect. cbn.
  destruct (connect mysql s) as [[f |] s1].
  - exists (Raise (exn_of_fault f)), s1, [Connect false]. reflexivity.
  - exists (Return Connection), s1, [Connect true]. reflexivity.
Qed.

Lemma steady_execute (c : cursor) (sql : string) : steady (cursor_execute c sql).
Proof.
  intros s. unfold cursor_execute. cbn.
  destruct (run mysql s sql) as [[f | rs] s1].
  - exists (Raise (exn_of_fault f)), s1, [Execute sql]. reflexivity.
  - exists (Return {| dictionary := dictionary c; pending := Some rs |}), s1, [Execute sql].
    reflexivity.
Qed.

Lemma steady_for_each {A B : Type} (f : A -> Py B) (l : list A) :
  (forall x, steady (f x)) -> steady (for_each f l).
Proof.
  intros Hf. induction l as [| x rest IH]; cbn [for_each].
  - apply steady_ret.
  - apply steady_bind; [apply Hf | intros y].
    apply steady_bind; [exact IH | intros ys]. apply steady_ret.
Qed.

(** One step of a proof that a computation is steady: the rule of its head
    construct, or a case split on what it branches on. *)
Ltac steady_step :=
  match goal with
  | |- steady (ret _) => apply steady_ret
  | |- steady (raise _) => apply steady_raise
  | |- steady (emit _) => apply steady_emit
  | |- steady (bind _ _) => apply steady_bind; [| intros ?]
  | |- steady (catch _ _) => apply steady_catch; [| intros ?]
  | |- steady (finally _ _) => apply steady_finally
  | |- steady mysql_connector_connect => apply steady_connect
  | |- steady (cursor_execute _ _) => apply steady_execute
  | |- steady (for_each _ _) => apply steady_for_each; intros ?
  | |- steady (if ?b then _ else _) => destruct b
  | |- steady (match ?x with _ => _ end) => destruct x
  end.

Ltac steady_auto := repeat steady_step.

Lemma steady_get_db_connection : steady get_db_connection.
Proof. unfold get_db_connection, logging_error. steady_auto. Qed.

Lemma steady_getitem0 (item : value) : steady (getitem0 item).
Proof. unfold getitem0. steady_auto. Qed.

Lemma steady_handle_request (request_data : dict) : steady (handle_request request_data).
Proof.
  pose proof steady_get_db_connection as Hconn.
  pose proof steady_getitem0 as Hitem.
  unfold handle_request, method_get, method_lower, conn_cursor, cursor_fetchall,
    cursor_close, conn_close.
  repeat (steady_step || apply Hconn || apply Hitem).
Qed.

(** *** Substrings *)

Lemma prefix_app (needle haystack : string) :
  String.prefix needle haystack = true <-> exists after, haystack = needle ++ after.
Proof.
  revert haystack. induction needle as [| c needle IH]; intros haystack; cbn.
  - split; [intros _; now exists haystack | intros _; now destruct haystack].
  - destruct haystack as [| d haystack].
    + split; [discriminate | intros [after H]; discriminate].
    + cbn. destruct (Ascii.ascii_dec c d) as [-> | Hcd].
      * rewrite IH. split; intros [after H]; exists after; [now rewrite H | now inversion H].
      * split; [discriminate | intros [after H]; congruence].
Qed.

(** [contains] is Python's [in]: the needle occurs somewhere in the haystack. *)
Lemma contains_spec (needle haystack : string) :
  contains needle haystack = true <->
  exists before after, haystack = before ++ needle ++ after.
Proof.
  induction haystack as [| c haystack IH]; cbn [contains].
  - rewrite orb_false_r, prefix_app. split.
    + intros [after H]. now exists "", after.
    + intros (before & after & H). destruct before; [now exists after | discriminate].
  - rewrite orb_true_iff, prefix_app, IH. split.
    + intros [[after H] | (before & after & H)].
      * now exists "", after.
      * exists (String c before), after. cbn. now rewrite H.
    + intros (before & after & H). destruct before as [| d before].
      * left. now exists after.
      * right. inversion H. now exists before, after.
Qed.

Lemma mentions_banned_spec (t : string) :
  mentions_banned t = true <->
  exists kw, In kw banned_keywords /\ contains kw t = true.
Proof.
  unfold mentions_banned, banned_keywords. rewrite !orb_true_iff. cbn [In]. split.
  - intros [[[H | H] | H] | H]; eauto 8.
  - intros (kw & [<- | [<- | [<- | [<- | []]]]] & H); auto.
Qed.

(** *** The dispatcher, branch by branch *)

Lemma py_eq_str_false (v : value) (literal : string) :
  v <> VStr literal -> py_eq_str v literal = false.
Proof.
  intros H. destruct v; try reflexivity. cbn.
  destruct (String.eqb_spec s literal) as [-> | ]; [contradiction | reflexivity].
Qed.

Lemma verb_is (request_data : dict) (verb : value) :
  dict_get request_data "verb" = Some verb ->
  dict_get_default request_data "verb" VNone = verb.
Proof. unfold dict_get_default. now intros ->. Qed.

(** Enter [handle_request] with the verb that [H] gives and settle the
    comparisons with the three literals. *)
Ltac pick_branch H :=
  unfold handle_request; rewrite (verb_is _ _ H);
  repeat match goal with
         | |- context [py_eq_str (VStr ?a) ?b] =>
             let r := eval vm_compute in (py_eq_str (VStr a) b) in
             change (py_eq_str (VStr a) b) with r
         end;
  cbv iota.

(** Any verb other than the three strings, of any type, reaches the last
    branch, which touches nothing. *)
Lemma unsupported_verb (request_data : dict) (w : world mysql) :
  let verb := dict_get_default request_data "verb" VNone in
  verb <> VStr "list_resources" -> verb <> VStr "read" -> verb <> VStr "execute" ->
  handle_request request_data w =
    (Return [("error", VStr ("Unsupported verb: " ++ py_str py verb))], w).
Proof.
  intros verb H1 H2 H3. unfold handle_request. fold verb.
  rewrite !py_eq_str_false by assumption. reflexivity.
Qed.

(** C10. An envelope with no [verb] reaches the last branch: the result is
    the soft error whose message renders the missing verb as [None], and the
    world is left as it was, so no connection was opened.  Matching is exact:
    a verb that is a string other than the three supported ones, in
    particular one that differs only in case, reaches the same branch. *)
Theorem absent_verb_is_unsupported (request_data : dict) (w : world mysql) :
  (dict_get request_data "verb" = None ->
   handle_request request_data w =
     (Return [("error", VStr "Unsupported verb: None")], w)) /\
  (forall verb,
     dict_get request_data "verb" = Some (VStr verb) ->
     ~ In verb ["list_resources"; "read"; "execute"] ->
     handle_request request_data w =
       (Return [("error", VStr ("Unsupported verb: " ++ verb))], w)).
Proof.
  split.
  - intros H. pose proof (unsupported_verb request_data w) as U.
    unfold dict_get_default in U. rewrite H in U. apply U; discriminate.
  - intros verb H Hnot. pose proof (unsupported_verb request_data w) as U.
    unfold dict_get_default in U. rewrite H in U. cbn in Hnot.
    apply U; intros E; inversion E; subst; tauto.
Qed.

Lemma method_get_parameter (request_data : dict) (key : string) (v : value)
    (w : world mysql) :
  parameter request_data key = Some v ->
  method_get (dict_get_default request_data "parameters" (VDict [])) key w = (Return v, w).
Proof.
  unfold parameter, dict_get_default. intros H.
  destruct (dict_get request_data "parameters") as [p |].
  - destruct p; try discriminate. cbn. now inversion H.
  - cbn. now inversion H.
Qed.

(** A [read] without a usable table name stops before any connection. *)
Lemma read_without_table_name (request_data : dict) (table_name : value)
    (w : world mysql) :
  dict_get request_data "verb" = Some (VStr "read") ->
  parameter request_data "name" = Some table_name ->
  truthy table_name = false ->
  handle_request request_data w =
    (Return [("error", VStr "Table name is required for read verb.")], w).
Proof.
  intros Hverb Hname Hfalsy. pick_branch Hverb.
  rewrite run_bind, (method_get_parameter _ _ _ _ Hname), Hfalsy. reflexivity.
Qed.

(** C3. An [execute] whose statement is a non-empty text that, lowercased,
    contains one of the four keywords anywhere gets the fixed rejection; the
    world is left as it was: no connection was opened, and the statement was
    not sent to the database. *)
Theorem banned_keyword_is_rejected (request_data : dict)
    (statement kw before after : string) (w : world mysql) :
  dict_get request_data "verb" = Some (VStr "execute") ->
  parameter request_data "statement" = Some (VStr statement) ->
  statement <> "" ->
  In kw banned_keywords ->
  str_lower py statement = before ++ kw ++ after ->
  handle_request request_data w =
    (Return [("error", VStr "Only SELECT statements are allowed for security reasons.")], w).
Proof.
  intros Hverb Hstmt Hne Hkw Hlow. pick_branch Hverb.
  rewrite run_bind, (method_get_parameter _ _ _ _ Hstmt).
  assert (truthy (VStr statement) = true) as ->.
  { cbn. destruct (String.eqb_spec statement ""); [contradiction | reflexivity]. }
  cbn [negb]. rewrite run_bind. cbn [method_lower ret Monad_Py].
  assert (mentions_banned (str_lower py statement) = true) as ->.
  { apply mentions_banned_spec. exists kw. split; [assumption |].
    apply contains_spec. now exists before, after. }
  reflexivity.
Qed.

Lemma truthy_text (text : string) : text <> "" -> truthy (VStr text) = true.
Proof.
  intros H. cbn. destruct (String.eqb_spec text ""); [contradiction | reflexivity].
Qed.

Lemma connected (w : world mysql) (s : dbstate mysql) :
  connect mysql (db w) = (None, s) ->
  get_db_connection w = (Return Connection, Build_world s (trace w ++ [Connect true])%list).
Proof.
  intros H. unfold get_db_connection, mysql_connector_connect. cbn. now rewrite H.
Qed.

(** C4. On a database that accepts the connection and then rejects the
    statement with a driver error: [execute], for a keyword-clean non-empty
    statement, returns the soft [{error: "SQL Error: <driver message>"}] and
    the run ends with the cursor and the connection closed; [list_resources]
    and [read] raise the driver's error, which leaves the dispatcher. *)
Theorem query_error_is_soft_only_in_execute (request_data : dict)
    (w : world mysql) (s1 s2 : dbstate mysql) (err : string) :
  connect mysql (db w) = (None, s1) ->
  (forall statement,
     dict_get request_data "verb" = Some (VStr "execute") ->
     parameter request_data "statement" = Some (VStr statement) ->
     statement <> "" ->
     mentions_banned (str_lower py statement) = false ->
     run mysql s1 statement = (inl (DriverError err), s2) ->
     handle_request request_data w =
       (Return [("error", VStr ("SQL Error: " ++ err))],
        Build_world s2
          (trace w ++ [Connect true; OpenCursor true; Execute statement;
                       CloseCursor; CloseConnection])%list)) /\
  (dict_get request_data "verb" = Some (VStr "list_resources") ->
   run mysql s1 "SHOW TABLES;" = (inl (DriverError err), s2) ->
   fst (handle_request request_data w) = Raise (MySQLError err)) /\
  (forall name,
     dict_get request_data "verb" = Some (VStr "read") ->
     parameter request_data "name" = Some (VStr name) ->
     name <> "" ->
     run mysql s1 ("SELECT * FROM `" ++ name ++ "` LIMIT 100;") =
       (inl (DriverError err), s2) ->
     fst (handle_request request_data w) = Raise (MySQLError err)).
Proof.
  intros Hconn. repeat split.
  - intros statement Hverb Hstmt Hne Hclean Hrun. pick_branch Hverb.
    rewrite run_bind, (method_get_parameter _ _ _ _ Hstmt), (truthy_text _ Hne).
    cbn [negb]. rewrite run_bind. cbn [method_lower ret Monad_Py]. rewrite Hclean.
    rewrite run_bind, (connected _ _ Hconn).
    unfold conn_cursor, cursor_execute, cursor_close, conn_close, finally.
    cbn -[String.append]. rewrite Hrun. cbn -[String.append].
    rewrite <- !app_assoc. reflexivity.
  - intros Hverb Hrun. pick_branch Hverb.
    rewrite run_bind, (connected _ _ Hconn).
    unfold conn_cursor, cursor_execute. cbn -[String.append]. rewrite Hrun. reflexivity.
  - intros name Hverb Hname Hne Hrun. pick_branch Hverb.
    rewrite run_bind, (method_get_parameter _ _ _ _ Hname), (truthy_text _ Hne).
    cbn [negb]. rewrite run_bind, (connected _ _ Hconn).
    unfold conn_cursor, cursor_execute. cbn -[String.append]. rewrite Hrun. reflexivity.
Qed.

(** *** The gateway *)

(** The path operation behind its dependency: credentials that are missing
    or differ from the secret are answered 401 whatever the request is, and
    the world is left as it was. *)
Lemma invalid_token_is_401 (creds : option HTTPAuthorizationCredentials)
    (request : McpRequest) (w : world mysql) :
  creds = None \/ (exists c, creds = Some c /\ credentials c <> API_KEY) ->
  post_query creds request w =
    ({| status := 401; body := VDict [("detail", VStr "Invalid API key")] |}, w).
Proof.
  intros [-> | (c & -> & Hne)]; unfold post_query; rewrite run_bind; cbn.
  - reflexivity.
  - destruct (String.eqb_spec (credentials c) API_KEY); [contradiction | reflexivity].
Qed.

Lemma verified (c : HTTPAuthorizationCredentials) (w : world mysql) :
  credentials c = API_KEY -> verify_api_key (Some c) w = (Return (credentials c), w).
Proof. intros H. cbn. now rewrite H, String.eqb_refl. Qed.

(** A soft error of the dispatcher is handed to the framework as a returned
    object, not raised. *)
Lemma soft_error_is_returned (request : McpRequest) (w w' : world mysql)
    (result : dict) (message : value) :
  handle_request (mcp_request request) w = (Return result, w') ->
  dict_get result "error" = Some message ->
  process_query request w = (Return (ExceptionObject 400 message), w').
Proof.
  intros Hrun Herr. unfold process_query. cbn. now rewrite Hrun, Herr.
Qed.

(** So the response to it has status 200; its body holds the attributes of
    the exception object. *)
Lemma soft_error_is_answered_200 (c : HTTPAuthorizationCredentials)
    (request : McpRequest) (w w' : world mysql) (result : dict) (message : value) :
  credentials c = API_KEY ->
  handle_request (mcp_request request) w = (Return result, w') ->
  dict_get result "error" = Some message ->
  post_query (Some c) request w =
    ({| status := 200;
        body := VDict [("status_code", VInt 400); ("detail", message);
                       ("headers", VNone)] |}, w').
Proof.
  intros Hkey Hrun Herr. unfold post_query.
  rewrite run_bind, (verified _ _ Hkey), (soft_error_is_returned _ _ _ _ _ Hrun Herr).
  reflexivity.
Qed.

(** A result without an [error] key is answered 200, with the result as body. *)
Lemma success_is_answered_verbatim (c : HTTPAuthorizationCredentials)
    (request : McpRequest) (w w' : world mysql) (result : dict) :
  credentials c = API_KEY ->
  handle_request (mcp_request request) w = (Return result, w') ->
  dict_get result "error" = None ->
  post_query (Some c) request w = ({| status := 200; body := VDict result |}, w').
Proof.
  intros Hkey Hrun Herr. unfold post_query.
  rewrite run_bind, (verified _ _ Hkey). unfold process_query. cbn.
  now rewrite Hrun, Herr.
Qed.

(** An exception that leaves the dispatcher is answered 500. *)
Lemma exception_is_answered_500 (c : HTTPAuthorizationCredentials)
    (request : McpRequest) (w w' : world mysql) (e : exn) :
  credentials c = API_KEY ->
  handle_request (mcp_request request) w = (Raise e, w') ->
  (forall status_code detail, e = HTTPException status_code detail -> status_code = 500) ->
  status (fst (post_query (Some c) request w)) = 500.
Proof.
  intros Hkey Hrun H500. unfold post_query.
  rewrite run_bind, (verified _ _ Hkey). unfold process_query. cbn. rewrite Hrun.
  destruct e as [status_code detail | text | class text]; cbn; [| reflexivity ..].
  now apply (H500 status_code detail).
Qed.

(** C8. [GET /health] is answered 200 in every world.  When the connection
    opens, the body is the [ok] mapping and the run opened one connection and
    closed it; when it does not, the body is the [error] mapping with a
    detail, and no connection was opened. *)
Theorem health_check_is_always_200 (w : world mysql) :
  exists content w',
    get_health w = ({| status := 200; body := VDict content |}, w') /\
    match connect mysql (db w) with
    | (None, s) =>
        content = [("status", VStr "ok"); ("database_connection", VStr "successful")] /\
        w' = Build_world s (trace w ++ [Connect true; CloseConnection])%list
    | (Some f, s) =>
        exists detail logged,
          content = [("status", VStr "error"); ("database_connection", VStr "failed");
                     ("detail", VStr detail)] /\
          w' = Build_world s (trace w ++ Connect false :: map LogError logged)%list
    end.
Proof.
  unfold get_health, health_check, get_db_connection, mysql_connector_connect,
    logging_error, conn_close, emit.
  cbn -[String.append].
  destruct (connect mysql (db w)) as [[[err | class text] |] s]; cbn -[String.append].
  - eexists _, _. split; [reflexivity |].
    exists (string_of_Z 500 ++ ": " ++ "Database connection error: " ++ err),
      ["Database connection failed: " ++ err].
    rewrite <- app_assoc. split; reflexivity.
  - eexists _, _. split; [reflexivity |]. exists text, []. split; reflexivity.
  - eexists _, _. split; [reflexivity |]. rewrite <- app_assoc. split; reflexivity.
Qed.

(** *** Connections opened and closed *)

Lemma steady_events {A : Type} (c : Py A) (w : world mysql) :
  steady c -> added w (snd (c w)) (events_of c (db w)).
Proof.
  intros Hc. destruct (Hc (db w)) as (o & s & evs & H).
  unfold added, events_of. rewrite <- (world_eta w) at 1. now rewrite !H.
Qed.

Lemma for_each_getitem0 (items : list value) (w : world mysql) :
  exists o, for_each getitem0 items w = (o, w).
Proof.
  induction items as [| item items [o IH]]; cbn [for_each].
  - now exists (Return []).
  - rewrite run_bind.
    assert (exists o1, getitem0 item w = (o1, w)) as [o1 ->].
    { unfold getitem0.
      destruct item as [| | | | [|] | [|] | [|] |]; cbn; eauto. }
    destruct o1; [| eauto]. rewrite run_bind, IH. destruct o; cbn; eauto.
Qed.

(** Split on everything a run branches on, until it has run to its end. *)
Ltac run_cases :=
  repeat first
    [ progress cbn -[String.append mentions_banned truthy py_eq_str py_str for_each] in *
    | match goal with
      | H : (_, _) = (_, _) |- _ => inversion H; clear H; subst
      | H : context [for_each getitem0 ?l ?w] |- _ =>
          let o := fresh "o" in let E := fresh "E" in
          destruct (for_each_getitem0 l w) as [o E]; rewrite E in H; clear E
      | |- context [for_each getitem0 ?l ?w] =>
          let o := fresh "o" in let E := fresh "E" in
          destruct (for_each_getitem0 l w) as [o E]; rewrite E; clear E
      | H : context [match ?x with _ => _ end] |- _ => destruct x eqn:?
      | |- context [match ?x with _ => _ end] => destruct x eqn:?
      end ].

(** Every run of the dispatcher that returns has closed the connection it
    opened, whatever the verb. *)
Lemma returning_run_releases_connection (request_data : dict) (s : dbstate mysql)
    (result : dict) (w' : world mysql) :
  handle_request request_data (Build_world s []) = (Return result, w') ->
  released (trace w').
Proof.
  unfold handle_request, get_db_connection, mysql_connector_connect, conn_cursor,
    cursor_execute, cursor_fetchall, cursor_close, conn_close, logging_error,
    method_get, method_lower, finally, emit, released, count.
  intros H. run_cases; try discriminate; cbn; auto.
Qed.

(** The [execute] branch closes the connection it opened on every path,
    whether the run returns or raises. *)
Lemma execute_releases_connection (request_data : dict) (s : dbstate mysql) :
  dict_get request_data "verb" = Some (VStr "execute") ->
  released (events_of (handle_request request_data) s).
Proof.
  intros Hverb. unfold events_of. pick_branch Hverb.
  unfold get_db_connection, mysql_connector_connect, conn_cursor,
    cursor_execute, cursor_fetchall, cursor_close, conn_close, logging_error,
    method_get, method_lower, finally, emit, released, count.
  run_cases; cbn; auto.
Qed.

Lemma returning_run_is_released (request_data : dict) (w w' : world mysql)
    (result : dict) :
  handle_request request_data w = (Return result, w') ->
  exists evs, added w w' evs /\ released evs.
Proof.
  intros Hrun.
  destruct (steady_handle_request request_data (db w)) as (o & s & evs & H).
  pose proof (H (trace w)) as Hw. rewrite world_eta, Hrun in Hw.
  inversion Hw; subst. exists evs. split; [reflexivity |].
  apply (returning_run_releases_connection request_data (db w) result
           (Build_world s ([] ++ evs)%list)).
  apply H.
Qed.

Lemma execute_run_is_released (request_data : dict) (w : world mysql) :
  dict_get request_data "verb" = Some (VStr "execute") ->
  exists evs, added w (snd (handle_request request_data w)) evs /\ released evs.
Proof.
  intros Hverb. exists (events_of (handle_request request_data) (db w)). split.
  - apply steady_events, steady_handle_request.
  - now apply execute_releases_connection.
Qed.

(** *** What every call does and does not do *)

(** Unfold the dispatcher down to the driver's operations. *)
Ltac open_dispatcher :=
  unfold handle_request, get_db_connection, mysql_connector_connect, conn_cursor,
    cursor_execute, cursor_fetchall, cursor_close, conn_close, logging_error,
    method_get, method_lower, finally, emit.

(** Close the cases that the facts collected on the way contradict. *)
Ltac settle :=
  repeat match goal with
         | H : Some _ = Some _ |- _ => inversion H; clear H; subst
         end;
  repeat match goal with
         | H : context [truthy ?v] |- _ =>
             destruct (truthy v); cbn -[truthy mentions_banned] in *
         | H : context [mentions_banned ?t] |- _ =>
             destruct (mentions_banned t); cbn -[truthy mentions_banned] in *
         end;
  try discriminate; try congruence.

(** A result that the dispatcher returns is a mapping with exactly one key:
    [resources], [data] or [results] with a list, or [error] with a text. *)
Theorem result_has_one_shape (request_data : dict) (w w' : world mysql)
    (result : dict) :
  handle_request request_data w = (Return result, w') ->
  one_shape result.
Proof using py mysql.
  unfold one_shape. open_dispatcher. intros H.
  run_cases; try discriminate; eauto 6.
Qed.

(** A request that does not get past the dispatcher's checks (an unknown
    verb, a missing or falsy parameter, parameters that are not a mapping, a
    statement that is not a text, a keyword) leaves the world as it was:
    nothing is logged and the database is not contacted. *)
Theorem rejected_request_touches_nothing (request_data : dict) (w : world mysql) :
  reaches_database request_data = false ->
  snd (handle_request request_data w) = w.
Proof using py mysql.
  unfold reaches_database, parameter, dict_get_default. open_dispatcher.
  unfold dict_get_default. intros H.
  run_cases; settle; reflexivity.
Qed.

(** A request that gets past the checks contacts the database: the first
    thing the call does is one attempt to connect. *)
Theorem accepted_request_connects_first (request_data : dict) (w : world mysql) :
  reaches_database request_data = true ->
  exists opened rest,
    added w (snd (handle_request request_data w)) (Connect opened :: rest).
Proof using py mysql.
  intros H.
  assert (exists opened rest,
             events_of (handle_request request_data) (db w) = Connect opened :: rest)
    as (opened & rest & E).
  { revert H. unfold events_of, reaches_database, parameter, dict_get_default.
    open_dispatcher. unfold dict_get_default. intros H.
    run_cases; settle; eauto. }
  exists opened, rest. rewrite <- E. apply steady_events, steady_handle_request.
Qed.

Lemma getitem0_outcome (item : value) (w : world mysql) :
  exists o, getitem0 item w = (o, w) /\
            forall status_code detail, o <> Raise (HTTPException status_code detail).
Proof.
  unfold getitem0.
  destruct item as [| | | | [|] | [|] | [|] |]; cbn; eexists; split;
    try reflexivity; discriminate.
Qed.

Lemma for_each_getitem0_outcome (items : list value) (w : world mysql) :
  exists o, for_each getitem0 items w = (o, w) /\
            forall status_code detail, o <> Raise (HTTPException status_code detail).
Proof.
  induction items as [| item items (o & IH & Hno)]; cbn [for_each].
  - exists (Return []). split; [reflexivity | discriminate].
  - rewrite run_bind. destruct (getitem0_outcome item w) as (o1 & -> & Hno1).
    destruct o1 as [x | e].
    + rewrite run_bind, IH. destruct o as [xs | e]; cbn.
      * eexists; split; [reflexivity | discriminate].
      * exists (Raise e). split; [reflexivity |]. intros sc d E. apply (Hno sc d).
        inversion E; reflexivity.
    + exists (Raise e). split; [reflexivity |]. intros sc d E. apply (Hno1 sc d).
      inversion E; reflexivity.
Qed.

(** The only [HTTPException] that leaves the dispatcher is the 500 of a
    failed connection. *)
Lemma dispatcher_raises_only_500 (request_data : dict) (w w' : world mysql)
    (status_code : Z) (detail : value) :
  handle_request request_data w = (Raise (HTTPException status_code detail), w') ->
  status_code = 500.
Proof.
  open_dispatcher. intros H.
  repeat first
    [ progress cbn -[String.append mentions_banned truthy py_eq_str py_str for_each] in *
    | match goal with
      | H : (_, _) = (_, _) |- _ => inversion H; clear H; subst
      | H : context [for_each getitem0 ?l ?w] |- _ =>
          let o := fresh "o" in let E := fresh "E" in let Hno := fresh "Hno" in
          destruct (for_each_getitem0_outcome l w) as (o & E & Hno);
          rewrite E in H; clear E
      | H : context [match ?x with _ => _ end] |- _ => destruct x eqn:?
      end ];
    try discriminate; try reflexivity;
    try match goal with
        | Hno : forall sc d, Raise _ <> Raise (HTTPException sc d) |- _ =>
            exfalso; eapply Hno; reflexivity
        | Hf : exn_of_fault ?f = HTTPException _ _ |- _ => destruct f; discriminate Hf
        end.
Qed.

(** *** More of the dispatcher, branch by branch *)

(** An [execute] without a statement, or with a falsy one (an empty text,
    [null], [0], an empty list), gets the soft error of line 92 and touches
    nothing. *)
Theorem execute_without_statement (request_data : dict) (statement : value)
    (w : world mysql) :
  dict_get request_data "verb" = Some (VStr "execute") ->
  parameter request_data "statement" = Some statement ->
  truthy statement = false ->
  handle_request request_data w =
    (Return [("error", VStr "SQL statement is required for execute verb.")], w).
Proof.
  intros Hverb Hstmt Hfalsy. pick_branch Hverb.
  rewrite run_bind, (method_get_parameter _ _ _ _ Hstmt), Hfalsy. reflexivity.
Qed.

(** An [execute] whose statement is not falsy and not a text (a number, a
    list, a mapping, [true]) raises the [AttributeError] of [.lower()]: it is
    not a soft error, and nothing is sent to the database. *)
Theorem execute_statement_not_text (request_data : dict) (statement : value)
    (w : world mysql) :
  dict_get request_data "verb" = Some (VStr "execute") ->
  parameter request_data "statement" = Some statement ->
  truthy statement = true ->
  (forall text, statement <> VStr text) ->
  handle_request request_data w =
    (Raise (PyException "AttributeError"
              ("'" ++ type_name statement ++ "' object has no attribute 'lower'")), w).
Proof.
  intros Hverb Hstmt Htruthy Hnot. pick_branch Hverb.
  rewrite run_bind, (method_get_parameter _ _ _ _ Hstmt), Htruthy.
  cbn [negb]. rewrite run_bind.
  destruct statement; try reflexivity. now destruct (Hnot s).
Qed.

(** How the [execute] branch ends once the statement is past the filter and
    the connection is open, by what the engine answers. *)
Lemma execute_runs (request_data : dict) (statement : string)
    (w : world mysql) (s1 s2 : dbstate mysql) (answer : fault + result_set) :
  dict_get request_data "verb" = Some (VStr "execute") ->
  parameter request_data "statement" = Some (VStr statement) ->
  statement <> "" ->
  mentions_banned (str_lower py statement) = false ->
  connect mysql (db w) = (None, s1) ->
  run mysql s1 statement = (answer, s2) ->
  handle_request request_data w =
    (match answer with
     | inr rs =>
         Return [("results",
                  VList (map (fun r => VDict (dict_of_zip (column_names rs) r)) (rows rs)))]
     | inl (DriverError err) => Return [("error", VStr ("SQL Error: " ++ err))]
     | inl (Crash class text) => Raise (PyException class text)
     end,
     Build_world s2
       (trace w ++ [Connect true; OpenCursor true; Execute statement;
                    CloseCursor; CloseConnection])%list).
Proof.
  intros Hverb Hstmt Hne Hclean Hconn Hrun. pick_branch Hverb.
  rewrite run_bind, (method_get_parameter _ _ _ _ Hstmt), (truthy_text _ Hne).
  cbn [negb]. rewrite run_bind. cbn [method_lower ret Monad_Py]. rewrite Hclean.
  rewrite run_bind, (connected _ _ Hconn).
  unfold conn_cursor, cursor_execute, cursor_fetchall, cursor_close, conn_close, finally.
  cbn -[String.append]. rewrite Hrun.
  destruct answer as [[err | class text] | rs]; cbn -[String.append];
    rewrite <- !app_assoc; reflexivity.
Qed.

(** An [execute] with a non-empty text that mentions none of the keywords,
    on a database that accepts the connection and the statement: the
    statement is sent as it was given (not lowercased), once, and the result
    is [{results: rows}] with one mapping per row, in the engine's order; the
    cursor and the connection are closed. *)
Theorem clean_statement_is_executed_verbatim (request_data : dict) (statement : string)
    (w : world mysql) (s1 s2 : dbstate mysql) (rs : result_set) :
  dict_get request_data "verb" = Some (VStr "execute") ->
  parameter request_data "statement" = Some (VStr statement) ->
  statement <> "" ->
  mentions_banned (str_lower py statement) = false ->
  connect mysql (db w) = (None, s1) ->
  run mysql s1 statement = (inr rs, s2) ->
  handle_request request_data w =
    (Return [("results",
              VList (map (fun r => VDict (dict_of_zip (column_names rs) r)) (rows rs)))],
     Build_world s2
       (trace w ++ [Connect true; OpenCursor true; Execute statement;
                    CloseCursor; CloseConnection])%list).
Proof.
  intros Hverb Hstmt Hne Hclean Hconn Hrun.
  exact (execute_runs _ _ _ _ _ _ Hverb Hstmt Hne Hclean Hconn Hrun).
Qed.

(** When the driver fails inside [execute] with something that is not a
    [mysql.connector.Error], the exception is not turned into a soft error:
    it leaves the dispatcher, after the cursor and the connection were
    closed. *)
Theorem foreign_exception_leaves_execute_closed (request_data : dict)
    (statement class text : string) (w : world mysql) (s1 s2 : dbstate mysql) :
  dict_get request_data "verb" = Some (VStr "execute") ->
  parameter request_data "statement" = Some (VStr statement) ->
  statement <> "" ->
  mentions_banned (str_lower py statement) = false ->
  connect mysql (db w) = (None, s1) ->
  run mysql s1 statement = (inl (Crash class text), s2) ->
  handle_request request_data w =
    (Raise (PyException class text),
     Build_world s2
       (trace w ++ [Connect true; OpenCursor true; Execute statement;
                    CloseCursor; CloseConnection])%list).
Proof.
  intros Hverb Hstmt Hne Hclean Hconn Hrun.
  exact (execute_runs _ _ _ _ _ _ Hverb Hstmt Hne Hclean Hconn Hrun).
Qed.

(** The [read] branch up to its query: with a name that is not falsy and an
    open connection, it sends the capped [SELECT] with [str(name)] between
    backticks on a dictionary cursor. *)
Lemma read_runs (request_data : dict) (table_name : value)
    (w : world mysql) (s1 s2 : dbstate mysql) (answer : fault + result_set) :
  dict_get request_data "verb" = Some (VStr "read") ->
  parameter request_data "name" = Some table_name ->
  truthy table_name = true ->
  connect mysql (db w) = (None, s1) ->
  run mysql s1 ("SELECT * FROM `" ++ py_str py table_name ++ "` LIMIT 100;") = (answer, s2) ->
  handle_request request_data w =
    match answer with
    | inr rs =>
        (Return [("data",
                  VList (map (fun r => VDict (dict_of_zip (column_names rs) r)) (rows rs)))],
         Build_world s2
           (trace w ++ [Connect true; OpenCursor true;
                        Execute ("SELECT * FROM `" ++ py_str py table_name ++ "` LIMIT 100;");
                        CloseCursor; CloseConnection])%list)
    | inl f =>
        (Raise (exn_of_fault f),
         Build_world s2
           (trace w ++ [Connect true; OpenCursor true;
                        Execute ("SELECT * FROM `" ++ py_str py table_name ++ "` LIMIT 100;")])%list)
    end.
Proof.
  intros Hverb Hname Htruthy Hconn Hrun. pick_branch Hverb.
  rewrite run_bind, (method_get_parameter _ _ _ _ Hname), Htruthy.
  cbn [negb]. rewrite run_bind, (connected _ _ Hconn).
  unfold conn_cursor, cursor_execute, cursor_fetchall, cursor_close, conn_close.
  cbn -[String.append]. rewrite Hrun.
  destruct answer as [f | rs]; cbn -[String.append]; rewrite <- !app_assoc; reflexivity.
Qed.

(** The [read] branch does not filter or escape the name: whatever text it
    is (a keyword, a backtick, SQL), and also when it is a number, the
    statement sent is the capped [SELECT] with [str(name)] put between the
    backticks as it is. *)
Theorem read_name_is_sent_as_given (request_data : dict) (table_name : value)
    (w : world mysql) (s1 : dbstate mysql) :
  dict_get request_data "verb" = Some (VStr "read") ->
  parameter request_data "name" = Some table_name ->
  truthy table_name = true ->
  connect mysql (db w) = (None, s1) ->
  exists rest,
    added w (snd (handle_request request_data w))
      ([Connect true; OpenCursor true;
        Execute ("SELECT * FROM `" ++ py_str py table_name ++ "` LIMIT 100;")] ++ rest).
Proof.
  intros Hverb Hname Htruthy Hconn.
  destruct (run mysql s1 ("SELECT * FROM `" ++ py_str py table_name ++ "` LIMIT 100;"))
    as [answer s2] eqn:Hrun.
  rewrite (read_runs _ _ _ _ _ _ Hverb Hname Htruthy Hconn Hrun).
  destruct answer as [f | rs]; unfold added; cbn -[String.append].
  - exists []. reflexivity.
  - exists [CloseCursor; CloseConnection]. reflexivity.
Qed.

Lemma tables_of_rows (rs : list (list value)) (w : world mysql) :
  Forall (fun r => r <> []) rs ->
  for_each getitem0 (map (fun r => VTuple r) rs) w = (Return (map (hd VNone) rs), w).
Proof.
  induction 1 as [| r rs Hr _ IH]; cbn [map for_each].
  - reflexivity.
  - destruct r as [| x r]; [contradiction |]. cbn. rewrite IH. reflexivity.
Qed.

(** How the [list_resources] branch ends once the connection is open. *)
Lemma list_resources_runs (request_data : dict) (w : world mysql)
    (s1 s2 : dbstate mysql) (answer : fault + result_set) :
  dict_get request_data "verb" = Some (VStr "list_resources") ->
  connect mysql (db w) = (None, s1) ->
  run mysql s1 "SHOW TABLES;" = (answer, s2) ->
  match answer with
  | inr rs =>
      Forall (fun r => r <> []) (rows rs) ->
      handle_request request_data w =
        (Return [("resources",
                  VList (map (fun r =>
                                VDict [("name", hd VNone r);
                                       ("description",
                                        VStr ("Table: " ++ py_str py (hd VNone r)))])
                             (rows rs)))],
         Build_world s2
           (trace w ++ [Connect true; OpenCursor false; Execute "SHOW TABLES;";
                        CloseCursor; CloseConnection])%list)
  | inl f =>
      handle_request request_data w =
        (Raise (exn_of_fault f),
         Build_world s2
           (trace w ++ [Connect true; OpenCursor false; Execute "SHOW TABLES;"])%list)
  end.
Proof.
  intros Hverb Hconn Hrun. pick_branch Hverb.
  rewrite run_bind, (connected _ _ Hconn).
  unfold conn_cursor, cursor_execute, cursor_fetchall, cursor_close, conn_close.
  destruct answer as [f | rs].
  - cbn -[String.append]. rewrite Hrun. cbn. rewrite <- !app_assoc. reflexivity.
  - intros Hrows. cbn -[String.append for_each]. rewrite Hrun.
    cbn -[String.append for_each]. rewrite (tables_of_rows _ _ Hrows).
    cbn -[String.append]. rewrite <- !app_assoc, map_map. reflexivity.
Qed.

(** [list_resources], on a database that accepts the connection and answers
    [SHOW TABLES;] with rows of at least one column: the result has one
    resource per row, in the engine's order, whose name is the row's first
    column and whose description is ["Table: "] followed by that name; the
    cursor and the connection are closed. *)
Theorem list_resources_names_every_table (request_data : dict) (w : world mysql)
    (s1 s2 : dbstate mysql) (rs : result_set) :
  dict_get request_data "verb" = Some (VStr "list_resources") ->
  connect mysql (db w) = (None, s1) ->
  run mysql s1 "SHOW TABLES;" = (inr rs, s2) ->
  Forall (fun r => r <> []) (rows rs) ->
  handle_request request_data w =
    (Return [("resources",
              VList (map (fun r =>
                            VDict [("name", hd VNone r);
                                   ("description",
                                    VStr ("Table: " ++ py_str py (hd VNone r)))])
                         (rows rs)))],
     Build_world s2
       (trace w ++ [Connect true; OpenCursor false; Execute "SHOW TABLES;";
                    CloseCursor; CloseConnection])%list).
Proof.
  intros Hverb Hconn Hrun Hrows.
  exact (list_resources_runs _ _ _ _ _ Hverb Hconn Hrun Hrows).
Qed.

(** *** More of the gateway *)

(** What [process_query] makes of an exception that leaves the dispatcher. *)
Lemma process_query_on_exception (c : HTTPAuthorizationCredentials)
    (request : McpRequest) (w w' : world mysql) (e : exn) :
  credentials c = API_KEY ->
  handle_request (mcp_request request) w = (Raise e, w') ->
  post_query (Some c) request w =
    match e with
    | HTTPException status_code detail =>
        ({| status := status_code; body := VDict [("detail", detail)] |}, w')
    | _ =>
        ({| status := 500;
            body := VDict [("detail", VStr "An internal server error occurred.")] |},
         Build_world (db w')
           (trace w' ++ [LogError ("An unexpected error occurred: " ++ exn_str py e)])%list)
    end.
Proof.
  intros Hkey Hrun. unfold post_query.
  rewrite run_bind, (verified _ _ Hkey). unfold process_query, logging_error, emit.
  cbn -[String.append]. rewrite Hrun. destruct e; reflexivity.
Qed.

(** An exception other than an [HTTPException] that leaves the dispatcher is
    answered by a 500 with a fixed message; its text goes to the log, in one
    line, and not into the response. *)
Theorem unexpected_exception_is_a_generic_500 (c : HTTPAuthorizationCredentials)
    (request : McpRequest) (w w' : world mysql) (e : exn) :
  credentials c = API_KEY ->
  handle_request (mcp_request request) w = (Raise e, w') ->
  (forall status_code detail, e <> HTTPException status_code detail) ->
  post_query (Some c) request w =
    ({| status := 500;
        body := VDict [("detail", VStr "An internal server error occurred.")] |},
     Build_world (db w')
       (trace w' ++ [LogError ("An unexpected error occurred: " ++ exn_str py e)])%list).
Proof.
  intros Hkey Hrun Hnot. rewrite (process_query_on_exception _ _ _ _ _ Hkey Hrun).
  destruct e as [status_code detail | |]; [now destruct (Hnot status_code detail) | ..];
    reflexivity.
Qed.

Lemma malformed_parameters_raise (request_data : dict) (verb : string) (p : value)
    (w : world mysql) :
  dict_get request_data "verb" = Some (VStr verb) ->
  verb = "read" \/ verb = "execute" ->
  dict_get request_data "parameters" = Some p ->
  (forall items, p <> VDict items) ->
  handle_request request_data w =
    (Raise (PyException "AttributeError"
              ("'" ++ type_name p ++ "' object has no attribute 'get'")), w).
Proof.
  intros Hverb [-> | ->] Hp Hnot; pick_branch Hverb; rewrite run_bind;
    unfold dict_get_default; rewrite Hp;
    (destruct p; try reflexivity; now destruct (Hnot items)).
Qed.

(** A [read] or an [execute] whose [parameters] is there and is not a
    mapping ([null], a list, a text, a number) is not answered with a soft
    error: the dispatcher raises an [AttributeError] before any check, and
    the caller gets the generic 500; the database is not contacted. *)
Theorem malformed_parameters_are_500 (c : HTTPAuthorizationCredentials)
    (request : McpRequest) (verb : string) (p : value) (w : world mysql) :
  credentials c = API_KEY ->
  dict_get (mcp_request request) "verb" = Some (VStr verb) ->
  verb = "read" \/ verb = "execute" ->
  dict_get (mcp_request request) "parameters" = Some p ->
  (forall items, p <> VDict items) ->
  post_query (Some c) request w =
    ({| status := 500;
        body := VDict [("detail", VStr "An internal server error occurred.")] |},
     Build_world (db w)
       (trace w ++ [LogError ("An unexpected error occurred: '" ++ type_name p ++
                              "' object has no attribute 'get'")])%list).
Proof.
  intros Hkey Hverb Hwhich Hp Hnot.
  rewrite (process_query_on_exception _ _ _ _ _ Hkey
             (malformed_parameters_raise _ _ _ w Hverb Hwhich Hp Hnot)).
  reflexivity.
Qed.

Lemma connection_refused (request_data : dict) (w : world mysql)
    (s : dbstate mysql) (err : string) :
  reaches_database request_data = true ->
  connect mysql (db w) = (Some (DriverError err), s) ->
  handle_request request_data w =
    (Raise (HTTPException 500 (VStr ("Database connection error: " ++ err))),
     Build_world s
       (trace w ++ [Connect false; LogError ("Database connection failed: " ++ err)])%list).
Proof.
  destruct w as [s0 t]. cbn [db trace].
  unfold reaches_database, parameter, dict_get_default. open_dispatcher.
  unfold dict_get_default. intros H Hconn.
  run_cases; settle; rewrite <- !app_assoc; reflexivity.
Qed.

(** When the connection fails with a driver error, a request that got past
    the dispatcher's checks is answered 500, and the detail of the response
    carries the driver's message; the failure is logged once, and no
    connection was opened and no statement sent. *)
Theorem connection_failure_exposes_driver_text (c : HTTPAuthorizationCredentials)
    (request : McpRequest) (w : world mysql) (s : dbstate mysql) (err : string) :
  credentials c = API_KEY ->
  reaches_database (mcp_request request) = true ->
  connect mysql (db w) = (Some (DriverError err), s) ->
  post_query (Some c) request w =
    ({| status := 500;
        body := VDict [("detail", VStr ("Database connection error: " ++ err))] |},
     Build_world s
       (trace w ++ [Connect false; LogError ("Database connection failed: " ++ err)])%list).
Proof.
  intros Hkey Hreach Hconn.
  rewrite (process_query_on_exception _ _ _ _ _ Hkey
             (connection_refused _ _ _ _ Hreach Hconn)).
  reflexivity.
Qed.

(** A [read] whose query the engine rejects (a table that does not exist,
    say) is answered by the generic 500, not by a soft error: the driver's
    message is logged and is not in the response. *)
Theorem failed_read_is_a_generic_500 (c : HTTPAuthorizationCredentials)
    (request : McpRequest) (name err : string) (w : world mysql)
    (s1 s2 : dbstate mysql) :
  credentials c = API_KEY ->
  dict_get (mcp_request request) "verb" = Some (VStr "read") ->
  parameter (mcp_request request) "name" = Some (VStr name) ->
  name <> "" ->
  connect mysql (db w) = (None, s1) ->
  run mysql s1 ("SELECT * FROM `" ++ name ++ "` LIMIT 100;") = (inl (DriverError err), s2) ->
  post_query (Some c) request w =
    ({| status := 500;
        body := VDict [("detail", VStr "An internal server error occurred.")] |},
     Build_world s2
       (trace w ++ [Connect true; OpenCursor true;
                    Execute ("SELECT * FROM `" ++ name ++ "` LIMIT 100;");
                    LogError ("An unexpected error occurred: " ++ err)])%list).
Proof.
  intros Hkey Hverb Hname Hne Hconn Hrun.
  rewrite (process_query_on_exception _ _ _ _ _ Hkey
             (read_runs _ (VStr name) _ _ _ _ Hverb Hname (truthy_text _ Hne) Hconn Hrun)).
  cbn -[String.append]. rewrite <- app_assoc. reflexivity.
Qed.

(** Once the body is decoded and the token extracted, the answer has status
    200, 401 or 500. *)
Lemma query_status_is_200_401_or_500 (creds : option HTTPAuthorizationCredentials)
    (request : McpRequest) (w : world mysql) :
  In (status (fst (post_query creds request w))) [200; 401; 500].
Proof.
  unfold post_query. rewrite run_bind.
  destruct creds as [c |]; cbn [verify_api_key]; [| cbn; auto].
  destruct (String.eqb (credentials c) API_KEY); cbn [negb]; [| cbn; auto].
  cbn [ret Monad_Py]. unfold process_query. cbn -[handle_request].
  destruct (handle_request (mcp_request request) w) as [[result | e] w'] eqn:Hrun.
  - destruct (dict_get result "error"); cbn; auto.
  - destruct e as [status_code detail | text | class text]; cbn; auto.
    rewrite (dispatcher_raises_only_500 _ _ _ _ _ Hrun). auto.
Qed.

(** *** The order of a call *)

(** Whatever the request and whatever the engine does, what one call of the
    dispatcher does to the database follows the protocol: at most one attempt
    to connect; a cursor only on the connection it opened; at most one
    statement, and only on that open cursor; the cursor closed before the
    connection; nothing but log lines after the connection is closed. *)
Theorem dispatcher_is_orderly (request_data : dict) (w : world mysql) :
  exists evs,
    added w (snd (handle_request request_data w)) evs /\ orderly evs.
Proof using py mysql.
  exists (events_of (handle_request request_data) (db w)). split.
  - apply steady_events, steady_handle_request.
  - unfold events_of, orderly. open_dispatcher.
    run_cases; cbn; eauto.
Qed.

(** *** The same request again *)


(** *** The endpoint from the HTTP request on *)

Lemma endpoint_runs_path_operation (web : Framework) (request : http_request)
    (creds : option HTTPAuthorizationCredentials) (mcp : McpRequest) (w : world mysql) :
  auth_scheme web (authorization request) = Return creds ->
  validate (payload request) = Some mcp ->
  query_endpoint web request w = post_query creds mcp w.
Proof.
  intros Hauth Hvalid. unfold query_endpoint, post_query. rewrite Hauth, run_bind.
  destruct (payload request) as [| | v]; try discriminate.
  rewrite Hvalid. destruct (verify_api_key creds w) as [[key | e] w']; reflexivity.
Qed.

(** Bytes that do not decode as JSON are answered 422 before the token is
    looked at. *)
Lemma malformed_body_is_422 (web : Framework) (request : http_request)
    (w : world mysql) :
  payload request = NotJSON ->
  query_endpoint web request w = (unprocessable web NotJSON, w).
Proof. intros H. unfold query_endpoint. now rewrite H. Qed.

(** C5. A [/query] request whose body is not malformed JSON and whose token
    is not the secret is turned away before the body is validated: when the
    security scheme itself rejects the header (no token), the answer is the
    scheme's own; when it returns credentials that differ from the secret,
    the answer is 401 with "Invalid API key".  Either way the answer is the
    same for every such body, and the world is left as it was: the
    dispatcher did not run and nothing reached the database. *)
Theorem invalid_token_is_rejected (web : Framework) (request : http_request)
    (w : world mysql) :
  payload request <> NotJSON ->
  (forall e,
     auth_scheme web (authorization request) = Raise e ->
     query_endpoint web request w = (fastapi_respond (Raise e), w)) /\
  (forall creds,
     auth_scheme web (authorization request) = Return creds ->
     creds = None \/ (exists c, creds = Some c /\ credentials c <> API_KEY) ->
     query_endpoint web request w =
       ({| status := 401; body := VDict [("detail", VStr "Invalid API key")] |}, w)).
Proof.
  intros Hbody. unfold query_endpoint. split.
  - intros e Hauth. rewrite Hauth.
    destruct (payload request); [contradiction | reflexivity ..].
  - intros creds Hauth Hbad. rewrite Hauth.
    assert (verify_api_key creds w =
              (Raise (HTTPException 401 (VStr "Invalid API key")), w)) as ->.
    { destruct Hbad as [-> | (c & -> & Hne)]; cbn; [reflexivity |].
      destruct (String.eqb_spec (credentials c) API_KEY); [contradiction | reflexivity]. }
    destruct (payload request); [contradiction | reflexivity ..].
Qed.


End Server.

(** ** The configuration *)

Lemma truthy_getenv (env : environ) (name : string) :
  truthy (os_getenv env name VNone) = true <-> is_set env name.
Proof.
  unfold os_getenv, is_set. destruct (env name) as [text |]; cbn.
  - destruct (String.eqb_spec text "") as [-> | Hne]; cbn.
    + split; [discriminate | intros (t & E & Hne); congruence].
    + split; [intros _; now exists text | reflexivity].
  - split; [discriminate | intros (t & E & _); discriminate].
Qed.

Lemma loaded_secret (env : environ) (cfg : settings) :
  load_settings env = Return cfg ->
  exists key, env "API_KEY" = Some key /\ key <> "" /\ settings_API_KEY cfg = VStr key.
Proof.
  unfold load_settings.
  destruct (truthy (os_getenv env "API_KEY" VNone)) eqn:E; cbn [negb]; [| discriminate].
  destruct (forallb truthy _); cbn [negb]; [| discriminate].
  intros H. inversion H; subst; clear H. cbn.
  apply truthy_getenv in E. destruct E as (key & E & Hne).
  exists key. unfold os_getenv. rewrite E. auto.
Qed.

(** The module loads exactly when the secret and the four database
    variables are set to non-empty texts; [MYSQL_PORT] is not needed. *)
Theorem startup_needs_every_variable (env : environ) :
  (exists cfg, load_settings env = Return cfg) <->
  is_set env "API_KEY" /\ is_set env "MYSQL_HOST" /\ is_set env "MYSQL_USER" /\
  is_set env "MYSQL_PASSWORD" /\ is_set env "MYSQL_DATABASE".
Proof.
  rewrite <- !truthy_getenv. unfold load_settings. cbn [forallb].
  destruct (truthy (os_getenv env "API_KEY" VNone));
    destruct (truthy (os_getenv env "MYSQL_HOST" VNone));
    destruct (truthy (os_getenv env "MYSQL_USER" VNone));
    destruct (truthy (os_getenv env "MYSQL_PASSWORD" VNone));
    destruct (truthy (os_getenv env "MYSQL_DATABASE" VNone)); cbn;
    split; try (intros [cfg H]; discriminate H); try (intros H; decompose [and] H; discriminate);
    eauto.
Qed.

(** Without the secret the module stops on the first check, with the
    message about [API_KEY], whatever the database variables are. *)
Theorem missing_secret_is_reported_first (env : environ) :
  ~ is_set env "API_KEY" ->
  load_settings env =
    Raise (PyException "ValueError" "API_KEY environment variable is not set.").
Proof.
  intros Hnot. unfold load_settings.
  destruct (truthy (os_getenv env "API_KEY" VNone)) eqn:E; [| reflexivity].
  apply truthy_getenv in E. contradiction.
Qed.

(** What the module holds once it has loaded: the secret is the non-empty
    text of [API_KEY]; the port is the text of [MYSQL_PORT] as it is, even
    empty, when the variable is there, and the number 3306 when it is not. *)
Theorem loaded_settings (env : environ) (cfg : settings) :
  load_settings env = Return cfg ->
  (exists key, env "API_KEY" = Some key /\ key <> "" /\ settings_API_KEY cfg = VStr key) /\
  settings_DB_PORT cfg =
    match env "MYSQL_PORT" with
    | Some text => VStr text
    | None => VInt 3306
    end.
Proof.
  intros Hload. split; [exact (loaded_secret env cfg Hload) |].
  revert Hload. unfold load_settings.
  destruct (truthy (os_getenv env "API_KEY" VNone)); cbn [negb]; [| discriminate].
  destruct (forallb truthy _); cbn [negb]; [| discriminate].
  intros H. inversion H; subst; clear H. reflexivity.
Qed.

(** ** Reading a table of the engine that reads its statements *)

Lemma until_backtick_plain (name rest : string) :
  plain name = true ->
  until_backtick (name ++ String "`" rest) = Some (name, rest).
Proof.
  induction name as [| c name IH]; cbn.
  - reflexivity.
  - destruct (Ascii.eqb c "`"); cbn; [discriminate |].
    intros H. now rewrite (IH H).
Qed.

(** The statement of the [read] branch is read by the engine as the first
    100 rows of the table of that name. *)
Lemma parse_select_of_read (name : string) :
  plain name = true ->
  parse_select ("SELECT * FROM `" ++ name ++ "` LIMIT 100;") = Some (name, 100%nat).
Proof.
  intros H. unfold parse_select. cbn [String.append strip_prefix Ascii.eqb Bool.eqb].
  rewrite (until_backtick_plain name " LIMIT 100;" H). reflexivity.
Qed.


(** ** Runs on the sample engines *)

Example list_resources_run :
  handle_request sample_builtins sample_driver [("verb", VStr "list_resources")] shop_world =
    (Return [("resources",
              VList [VDict [("name", VStr "users");
                            ("description", VStr "Table: users")]])],
     @Build_world sample_driver shop
       [Connect true; OpenCursor false; Execute "SHOW TABLES;"; CloseCursor;
        CloseConnection]).
Proof. vm_compute. reflexivity. Qed.

Example health_check_runs :
  fst (get_health sample_builtins sample_driver shop_world) =
    {| status := 200;
       body := VDict [("status", VStr "ok"); ("database_connection", VStr "successful")] |} /\
  fst (get_health sample_builtins sample_driver shop_offline_world) =
    {| status := 200;
       body := VDict [("status", VStr "error"); ("database_connection", VStr "failed");
                      ("detail",
                       VStr "500: Database connection error: 2003 (HY000): Can't connect to MySQL server")] |}.
Proof. split; vm_compute; reflexivity. Qed.

(** C10, on an empty envelope and on a verb in capitals. *)
Lemma absent_verb_is_unsupported_witness :
  handle_request sample_builtins sample_driver [] shop_world =
    (Return [("error", VStr "Unsupported verb: None")], shop_world) /\
  handle_request sample_builtins sample_driver [("verb", VStr "READ")] shop_world =
    (Return [("error", VStr "Unsupported verb: READ")], shop_world).
Proof.
  split.
  - apply (proj1 (absent_verb_is_unsupported sample_builtins sample_driver [] shop_world)).
    reflexivity.
  - apply (proj2 (absent_verb_is_unsupported sample_builtins sample_driver
                    [("verb", VStr "READ")] shop_world) "READ").
    + reflexivity.
    + cbn. intros [H | [H | [H | H]]]; (discriminate H || exact H).
Defined.

(** C3, on a statement that only reads and names a table [Updates]. *)
Lemma banned_keyword_is_rejected_witness :
  handle_request sample_builtins sample_driver
    (execute_request "SELECT * FROM Updates") shop_world =
    (Return [("error", VStr "Only SELECT statements are allowed for security reasons.")],
     shop_world).
Proof.
  apply (banned_keyword_is_rejected sample_builtins sample_driver
           (execute_request "SELECT * FROM Updates") "SELECT * FROM Updates"
           "update" "select * from " "s" shop_world).
  - reflexivity.
  - reflexivity.
  - discriminate.
  - cbn. auto.
  - reflexivity.
Defined.

(** C4, on the engine that denies every statement. *)
Lemma query_error_is_soft_only_in_execute_witness :
  handle_request sample_builtins locked_driver (execute_request "SELECT 1") locked_world =
    (Return [("error", VStr ("SQL Error: " ++ denied))],
     @Build_world locked_driver tt
       [Connect true; OpenCursor true; Execute "SELECT 1"; CloseCursor; CloseConnection]) /\
  fst (handle_request sample_builtins locked_driver [("verb", VStr "list_resources")]
         locked_world) = Raise (MySQLError denied) /\
  fst (handle_request sample_builtins locked_driver (read_request "users") locked_world) =
    Raise (MySQLError denied).
Proof.
  split; [| split].
  - apply (proj1 (query_error_is_soft_only_in_execute sample_builtins locked_driver
                    (execute_request "SELECT 1") locked_world tt tt denied eq_refl)
             "SELECT 1").
    + reflexivity.
    + reflexivity.
    + discriminate.
    + reflexivity.
    + reflexivity.
  - apply (proj1 (proj2 (query_error_is_soft_only_in_execute sample_builtins locked_driver
                    [("verb", VStr "list_resources")] locked_world tt tt denied eq_refl))).
    + reflexivity.
    + reflexivity.
  - apply (proj2 (proj2 (query_error_is_soft_only_in_execute sample_builtins locked_driver
                    (read_request "users") locked_world tt tt denied eq_refl)) "users").
    + reflexivity.
    + reflexivity.
    + discriminate.
    + reflexivity.
Defined.

(** C1. An authorized request with an unknown verb: the dispatcher's result
    has an [error] key, and the response has status 200, not 400; the 400 is
    a field of the body. *)
Theorem soft_error_status_is_200 :
  let request := {| mcp_request := [("verb", VStr "bogus")] |} in
  handle_request sample_builtins sample_driver (mcp_request request) shop_world =
    (Return [("error", VStr "Unsupported verb: bogus")], shop_world) /\
  process_query sample_builtins sample_driver request shop_world =
    (Return (ExceptionObject 400 (VStr "Unsupported verb: bogus")), shop_world) /\
  post_query sample_builtins sample_driver secret (Some bearer) request shop_world =
    ({| status := 200;
        body := VDict [("status_code", VInt 400);
                       ("detail", VStr "Unsupported verb: bogus");
                       ("headers", VNone)] |}, shop_world).
Proof. cbv zeta. repeat (split; [vm_compute; reflexivity |]). vm_compute; reflexivity. Qed.

(** C7. An authorized [read] with no parameters: the dispatcher returns the
    soft error and opens no connection, and the response has status 200, not
    400. *)
Theorem missing_table_name_status_is_200 :
  let request := {| mcp_request := [("verb", VStr "read")] |} in
  handle_request sample_builtins sample_driver (mcp_request request) shop_world =
    (Return [("error", VStr "Table name is required for read verb.")], shop_world) /\
  status (fst (post_query sample_builtins sample_driver secret (Some bearer) request
                 shop_world)) = 200 /\
  snd (post_query sample_builtins sample_driver secret (Some bearer) request shop_world) =
    shop_world.
Proof. cbv zeta. repeat (split; [vm_compute; reflexivity |]). vm_compute; reflexivity. Qed.

(** C2. A [read] of a table that does not exist, and a [list_resources] on an
    engine that denies the statement: the query raises, the exception leaves
    the dispatcher, and the run ends with one connection opened and none
    closed. *)
Theorem failed_query_leaves_connection_open :
  let read_run :=
    handle_request sample_builtins sample_driver (read_request "orders") shop_world in
  let list_run :=
    handle_request sample_builtins locked_driver [("verb", VStr "list_resources")]
      locked_world in
  fst read_run = Raise (MySQLError "1146 (42S02): Table doesn't exist") /\
  trace (snd read_run) =
    [Connect true; OpenCursor true; Execute "SELECT * FROM `orders` LIMIT 100;"] /\
  count is_open (trace (snd read_run)) = 1%nat /\
  count is_close (trace (snd read_run)) = 0%nat /\
  fst list_run = Raise (MySQLError denied) /\
  trace (snd list_run) = [Connect true; OpenCursor false; Execute "SHOW TABLES;"] /\
  count is_open (trace (snd list_run)) = 1%nat /\
  count is_close (trace (snd list_run)) = 0%nat.
Proof. cbv zeta. repeat (split; [vm_compute; reflexivity |]). vm_compute; reflexivity. Qed.

(** ** More runs on the sample engines *)

Lemma result_has_one_shape_witness :
  one_shape [("resources",
              VList [VDict [("name", VStr "users"); ("description", VStr "Table: users")]])].
Proof.
  apply (result_has_one_shape sample_builtins sample_driver
           [("verb", VStr "list_resources")] shop_world
           (@Build_world sample_driver shop
              [Connect true; OpenCursor false; Execute "SHOW TABLES;"; CloseCursor;
               CloseConnection])).
  vm_compute. reflexivity.
Defined.

Lemma rejected_request_touches_nothing_witness :
  snd (handle_request sample_builtins sample_driver
         (execute_request "DROP TABLE users") shop_world) = shop_world.
Proof.
  apply (rejected_request_touches_nothing sample_builtins sample_driver
           (execute_request "DROP TABLE users") shop_world).
  vm_compute. reflexivity.
Defined.

Lemma accepted_request_connects_first_witness :
  exists opened rest,
    added shop_offline_world
      (snd (handle_request sample_builtins sample_driver (read_request "users")
              shop_offline_world))
      (Connect opened :: rest).
Proof.
  apply (accepted_request_connects_first sample_builtins sample_driver
           (read_request "users") shop_offline_world).
  vm_compute. reflexivity.
Defined.

Lemma execute_without_statement_witness :
  handle_request sample_builtins sample_driver [("verb", VStr "execute")] shop_world =
    (Return [("error", VStr "SQL statement is required for execute verb.")], shop_world).
Proof.
  apply (execute_without_statement sample_builtins sample_driver
           [("verb", VStr "execute")] VNone shop_world); reflexivity.
Defined.

Lemma execute_statement_not_text_witness :
  handle_request sample_builtins sample_driver
    [("verb", VStr "execute"); ("parameters", VDict [("statement", VInt 42)])] shop_world =
    (Raise (PyException "AttributeError" "'int' object has no attribute 'lower'"),
     shop_world).
Proof.
  apply (execute_statement_not_text sample_builtins sample_driver
           [("verb", VStr "execute"); ("parameters", VDict [("statement", VInt 42)])]
           (VInt 42) shop_world).
  - reflexivity.
  - reflexivity.
  - reflexivity.
  - intros text. discriminate.
Defined.

(** A statement that is not a [SELECT] and mentions no keyword is run. *)
Lemma clean_statement_is_executed_verbatim_witness :
  handle_request sample_builtins sample_driver (execute_request "SHOW TABLES;") shop_world =
    (Return [("results", VList [VDict [("Tables_in_shop", VStr "users")]])],
     @Build_world sample_driver shop
       [Connect true; OpenCursor true; Execute "SHOW TABLES;"; CloseCursor;
        CloseConnection]).
Proof.
  apply (clean_statement_is_executed_verbatim sample_builtins sample_driver
           (execute_request "SHOW TABLES;") "SHOW TABLES;" shop_world shop shop
           {| column_names := ["Tables_in_shop"]; rows := [[VStr "users"]] |}).
  - reflexivity.
  - reflexivity.
  - discriminate.
  - reflexivity.
  - reflexivity.
  - reflexivity.
Defined.

Lemma foreign_exception_leaves_execute_closed_witness :
  handle_request sample_builtins broken_driver (execute_request "SELECT 1") broken_world =
    (Raise (PyException "OSError" "connection reset by peer"),
     @Build_world broken_driver tt
       [Connect true; OpenCursor true; Execute "SELECT 1"; CloseCursor; CloseConnection]).
Proof.
  apply (foreign_exception_leaves_execute_closed sample_builtins broken_driver
           (execute_request "SELECT 1") "SELECT 1" "OSError" "connection reset by peer"
           broken_world tt tt).
  - reflexivity.
  - reflexivity.
  - discriminate.
  - reflexivity.
  - reflexivity.
  - reflexivity.
Defined.

(** A name that mentions a keyword and closes the backticks itself. *)
Lemma read_name_is_sent_as_given_witness :
  exists rest,
    added shop_world
      (snd (handle_request sample_builtins sample_driver
              (read_request "users`; DROP TABLE `users") shop_world))
      ([Connect true; OpenCursor true;
        Execute "SELECT * FROM `users`; DROP TABLE `users` LIMIT 100;"] ++ rest).
Proof.
  apply (read_name_is_sent_as_given sample_builtins sample_driver
           (read_request "users`; DROP TABLE `users")
           (VStr "users`; DROP TABLE `users") shop_world shop).
  - reflexivity.
  - reflexivity.
  - reflexivity.
  - reflexivity.
Defined.

Lemma list_resources_names_every_table_witness :
  handle_request sample_builtins sample_driver [("verb", VStr "list_resources")] shop_world =
    (Return [("resources",
              VList [VDict [("name", VStr "users");
                            ("description", VStr "Table: users")]])],
     @Build_world sample_driver shop
       [Connect true; OpenCursor false; Execute "SHOW TABLES;"; CloseCursor;
        CloseConnection]).
Proof.
  apply (list_resources_names_every_table sample_builtins sample_driver
           [("verb", VStr "list_resources")] shop_world shop shop
           {| column_names := ["Tables_in_shop"]; rows := [[VStr "users"]] |}).
  - reflexivity.
  - reflexivity.
  - reflexivity.
  - constructor; [discriminate | constructor].
Defined.

Lemma unexpected_exception_is_a_generic_500_witness :
  post_query sample_builtins sample_driver secret (Some bearer)
    {| mcp_request := [("verb", VStr "read"); ("parameters", VNone)] |} shop_world =
    ({| status := 500;
        body := VDict [("detail", VStr "An internal server error occurred.")] |},
     @Build_world sample_driver shop
       [LogError "An unexpected error occurred: 'NoneType' object has no attribute 'get'"]).
Proof.
  apply (unexpected_exception_is_a_generic_500 sample_builtins sample_driver secret bearer
           {| mcp_request := [("verb", VStr "read"); ("parameters", VNone)] |}
           shop_world shop_world
           (PyException "AttributeError" "'NoneType' object has no attribute 'get'")).
  - reflexivity.
  - reflexivity.
  - intros status_code detail. discriminate.
Defined.

Lemma malformed_parameters_are_500_witness :
  post_query sample_builtins sample_driver secret (Some bearer)
    {| mcp_request := [("verb", VStr "execute"); ("parameters", VList [])] |} shop_world =
    ({| status := 500;
        body := VDict [("detail", VStr "An internal server error occurred.")] |},
     @Build_world sample_driver shop
       [LogError "An unexpected error occurred: 'list' object has no attribute 'get'"]).
Proof.
  apply (malformed_parameters_are_500 sample_builtins sample_driver secret bearer
           {| mcp_request := [("verb", VStr "execute"); ("parameters", VList [])] |}
           "execute" (VList []) shop_world).
  - reflexivity.
  - reflexivity.
  - right. reflexivity.
  - reflexivity.
  - intros items. discriminate.
Defined.

Lemma connection_failure_exposes_driver_text_witness :
  post_query sample_builtins sample_driver secret (Some bearer)
    {| mcp_request := read_request "users" |} shop_offline_world =
    ({| status := 500;
        body := VDict [("detail",
                        VStr "Database connection error: 2003 (HY000): Can't connect to MySQL server")] |},
     @Build_world sample_driver shop_offline
       [Connect false;
        LogError "Database connection failed: 2003 (HY000): Can't connect to MySQL server"]).
Proof.
  apply (connection_failure_exposes_driver_text sample_builtins sample_driver secret bearer
           {| mcp_request := read_request "users" |} shop_offline_world shop_offline
           "2003 (HY000): Can't connect to MySQL server").
  - reflexivity.
  - reflexivity.
  - reflexivity.
Defined.

Lemma failed_read_is_a_generic_500_witness :
  post_query sample_builtins sample_driver secret (Some bearer)
    {| mcp_request := read_request "orders" |} shop_world =
    ({| status := 500;
        body := VDict [("detail", VStr "An internal server error occurred.")] |},
     @Build_world sample_driver shop
       [Connect true; OpenCursor true; Execute "SELECT * FROM `orders` LIMIT 100;";
        LogError "An unexpected error occurred: 1146 (42S02): Table doesn't exist"]).
Proof.
  apply (failed_read_is_a_generic_500 sample_builtins sample_driver secret bearer
           {| mcp_request := read_request "orders" |} "orders"
           "1146 (42S02): Table doesn't exist" shop_world shop shop).
  - reflexivity.
  - reflexivity.
  - reflexivity.
  - discriminate.
  - reflexivity.
  - reflexivity.
Defined.

Lemma shop_environ_is_set :
  is_set shop_environ "API_KEY" /\ is_set shop_environ "MYSQL_HOST" /\
  is_set shop_environ "MYSQL_USER" /\ is_set shop_environ "MYSQL_PASSWORD" /\
  is_set shop_environ "MYSQL_DATABASE".
Proof.
  repeat split;
    [exists "s3cret" | exists "db.internal" | exists "reader" | exists "hunter2"
     | exists "shop"];
    (split; [reflexivity | discriminate]).
Defined.

Lemma startup_needs_every_variable_witness :
  exists cfg, load_settings shop_environ = Return cfg.
Proof.
  apply (proj2 (startup_needs_every_variable shop_environ)).
  exact shop_environ_is_set.
Defined.

(** With the database variables and no secret. *)
Lemma missing_secret_is_reported_first_witness :
  load_settings
    (fun name => if String.eqb name "API_KEY" then None else shop_environ name) =
    Raise (PyException "ValueError" "API_KEY environment variable is not set.").
Proof.
  apply (missing_secret_is_reported_first
           (fun name => if String.eqb name "API_KEY" then None else shop_environ name)).
  intros (text & E & _). discriminate E.
Defined.

Lemma loaded_settings_witness :
  (exists key, shop_environ "API_KEY" = Some key /\ key <> "" /\ VStr "s3cret" = VStr key) /\
  VInt 3306 = VInt 3306.
Proof.
  apply (loaded_settings shop_environ
           {| settings_API_KEY := VStr "s3cret";
              settings_DB_HOST := VStr "db.internal";
              settings_DB_PORT := VInt 3306;
              settings_DB_USER := VStr "reader";
              settings_DB_PASSWORD := VStr "hunter2";
              settings_DB_NAME := VStr "shop" |}).
  reflexivity.
Defined.

Lemma execute_run_is_released_witness :
  exists evs,
    added locked_world
      (snd (handle_request sample_builtins locked_driver (execute_request "SELECT 1")
              locked_world)) evs /\
    released evs.
Proof.
  apply (execute_run_is_released sample_builtins locked_driver
           (execute_request "SELECT 1") locked_world).
  reflexivity.
Defined.

Lemma returning_run_is_released_witness :
  exists evs,
    added shop_world
      (@Build_world sample_driver shop
         [Connect true; OpenCursor false; Execute "SHOW TABLES;"; CloseCursor;
          CloseConnection]) evs /\
    released evs.
Proof.
  apply (returning_run_is_released sample_builtins sample_driver
           [("verb", VStr "list_resources")] shop_world
           (@Build_world sample_driver shop
              [Connect true; OpenCursor false; Execute "SHOW TABLES;"; CloseCursor;
               CloseConnection])
           [("resources",
             VList [VDict [("name", VStr "users"); ("description", VStr "Table: users")]])]).
  vm_compute. reflexivity.
Defined.

(** A name that is the number zero counts as missing. *)
Lemma read_without_table_name_witness :
  handle_request sample_builtins sample_driver
    [("verb", VStr "read"); ("parameters", VDict [("name", VInt 0)])] shop_world =
    (Return [("error", VStr "Table name is required for read verb.")], shop_world).
Proof.
  apply (read_without_table_name sample_builtins sample_driver
           [("verb", VStr "read"); ("parameters", VDict [("name", VInt 0)])]
           (VInt 0) shop_world); reflexivity.
Defined.

Lemma success_is_answered_verbatim_witness :
  post_query sample_builtins sample_driver secret (Some bearer)
    {| mcp_request := [("verb", VStr "list_resources")] |} shop_world =
    ({| status := 200;
        body := VDict [("resources",
                        VList [VDict [("name", VStr "users");
                                      ("description", VStr "Table: users")]])] |},
     @Build_world sample_driver shop
       [Connect true; OpenCursor false; Execute "SHOW TABLES;"; CloseCursor;
        CloseConnection]).
Proof.
  apply (success_is_answered_verbatim sample_builtins sample_driver secret bearer
           {| mcp_request := [("verb", VStr "list_resources")] |} shop_world
           (@Build_world sample_driver shop
              [Connect true; OpenCursor false; Execute "SHOW TABLES;"; CloseCursor;
               CloseConnection])
           [("resources",
             VList [VDict [("name", VStr "users"); ("description", VStr "Table: users")]])]).
  - reflexivity.
  - vm_compute. reflexivity.
  - reflexivity.
Defined.

(** ** Runs for the claims on the gateway, the table and the clock *)


(** C5. A wrong token with a body that is not JSON: the scheme would return
    credentials that differ from the secret, and the answer is 422, not 401;
    the body was decoded before the token was looked at. *)
Lemma wrong_token_malformed_body_is_422 :
  let request := {| authorization := Some "Bearer guess"; payload := NotJSON |} in
  auth_scheme sample_web (authorization request) =
    Return (Some {| scheme := "Bearer"; credentials := "guess" |}) /\
  "guess" <> secret /\
  status (fst (query_endpoint sample_builtins sample_driver secret sample_web request
                 shop_world)) = 422 /\
  status (fst (query_endpoint sample_builtins sample_driver secret sample_web request
                 shop_world)) <> 401.
Proof.
  cbv zeta. split; [reflexivity |]. split; [discriminate |].
  split; [reflexivity | discriminate].
Qed.

(** C5, with a wrong token and with no token, on a body that decodes. *)
Lemma invalid_token_is_rejected_witness :
  let body := Json (VDict [("mcp_request", VDict (read_request "users"))]) in
  query_endpoint sample_builtins sample_driver secret sample_web
    {| authorization := Some "Bearer guess"; payload := body |} shop_world =
    ({| status := 401; body := VDict [("detail", VStr "Invalid API key")] |}, shop_world) /\
  query_endpoint sample_builtins sample_driver secret sample_web
    {| authorization := None; payload := body |} shop_world =
    ({| status := 401; body := VDict [("detail", VStr "Not authenticated")] |}, shop_world).
Proof.
  intros body. split.
  - apply (proj2 (invalid_token_is_rejected sample_builtins sample_driver secret sample_web
                    {| authorization := Some "Bearer guess"; payload := body |} shop_world
                    ltac:(discriminate))
             (Some {| scheme := "Bearer"; credentials := "guess" |})).
    + reflexivity.
    + right. exists {| scheme := "Bearer"; credentials := "guess" |}.
      split; [reflexivity | discriminate].
  - apply (proj1 (invalid_token_is_rejected sample_builtins sample_driver secret sample_web
                    {| authorization := None; payload := body |} shop_world
                    ltac:(discriminate))
             (HTTPException 401 (VStr "Not authenticated"))).
    reflexivity.
Defined.


